(** * Monitoring ingestion and sustained-alert engine

    A shallow embedding of [model/models.py] (the [Server] and
    [MonitorData] query helpers) and of [mail/simple_alert.py] (threshold
    evaluation, sustained-alert detection and the per-recipient mail loop),
    followed by the properties of the specification that concern them.

    Conventions of the embedding:
    - numeric values (the submitted float, the DECIMAL(5,2) columns and
      the float thresholds) are rationals: Python compares these types
      by exact value; a value written to a DECIMAL(5,2) column is read
      back to two decimals;
    - the only arithmetic that rounds, [len(recent_data) * 0.8], is done
      with binary64 floats;
    - a [datetime] is a number of microseconds, and the two clocks the
      code reads ([datetime.now] and [datetime.utcnow]) are separate;
    - a raised exception is a value of [result];
    - the SMTP transport is an oracle, and every call of
      [send_alert_email] is recorded in a log. *)

From Stdlib Require Import ZArith QArith Lqa List Sorted String Bool Lia.
From Stdlib Require Import Floats.PrimFloat Numbers.Cyclic.Int63.Uint63.
Import ListNotations.

Local Open Scope string_scope.
Local Open Scope list_scope.
Local Open Scope Z_scope.

(** ** Exceptions *)

Inductive exn : Type :=
| KeyError
| ValueError.

Inductive result (A : Type) : Type :=
| Ok (a : A)
| Raise (e : exn).

Arguments Ok {A} a.
Arguments Raise {A} e.

Definition bind {A B : Type} (r : result A) (k : A -> result B) : result B :=
  match r with
  | Ok a => k a
  | Raise e => Raise e
  end.

Notation "'let*' x ':=' r 'in' k" := (bind r (fun x => k))
  (at level 10, x name, r at level 100, k at level 200).

(** ** Time *)

(** The two readings of the wall clock: [now] is [datetime.now()] (local
    time, used for [recorded_at] and by the purge), [utcnow] is
    [datetime.utcnow()] (used by the sustained check). *)
Record Clock : Type := mkClock {
  now : Z;
  utcnow : Z
}.

Definition timedelta_minutes (m : Z) : Z := m * 60000000.
Definition timedelta_days (d : Z) : Z := d * 86400000000.

(** ** model/models.py *)

Module Models.

Record User : Type := mkUser {
  user_id : Z;
  username : string;
  email : string
}.

(** [server_pk] is the column [id] and [server_ip] the column
    [ip_address] of [servers]. *)
Record Server : Type := mkServer {
  server_pk : Z;
  server_name : string;
  server_ip : string
}.

Record MonitorData : Type := mkMonitorData {
  id : Z;
  server_id : Z;
  ip_address : string;
  cpu_value : Q;
  memory_value : Q;
  disk_value : Q;
  recorded_at : Z
}.

(** The tables. [server_users] is the many-to-many association table of
    pairs (server id, user id); [monitor_data_seq] is the autoincrement
    counter of [monitor_data]. *)
Record DB : Type := mkDB {
  users : list User;
  servers : list Server;
  server_users : list (Z * Z);
  monitor_data : list MonitorData;
  monitor_data_seq : Z
}.

Definition with_monitor_data (db : DB) (rows : list MonitorData) (seq : Z) : DB :=
  {| users := users db;
     servers := servers db;
     server_users := server_users db;
     monitor_data := rows;
     monitor_data_seq := seq |}.

(** [Server.get_by_ip]: [query.filter_by(ip_address=ip_address).first()]. *)
Definition Server_get_by_ip (db : DB) (ip : string) : option Server :=
  find (fun s => String.eqb (server_ip s) ip) (servers db).

(** [Server.get_alert_users]: [list(self.users)], the users joined to the
    server through [server_users]. *)
Definition get_alert_users (db : DB) (s : Server) : list User :=
  filter
    (fun u =>
       existsb (fun p => Z.eqb (fst p) (server_pk s) && Z.eqb (snd p) (user_id u))
               (server_users db))
    (users db).

(** The integer nearest to [x]; of two equally near, the even one. *)
Definition round_half_even (x : Q) : Z :=
  let d := Z.pos (Qden x) in
  let q := Qnum x / d in
  let r := Qnum x mod d in
  match 2 * r ?= d with
  | Lt => q
  | Gt => q + 1
  | Eq => if Z.even q then q else q + 1
  end.

(** What a [DECIMAL(5, 2)] column gives back for a value written to it:
    the value to two decimals, as ['%.2f'] prints it. The five digits of
    precision are not enforced by the default SQLite store. *)
Definition DECIMAL_5_2 (x : Q) : Q := round_half_even (x * 100) # 100.

(** [MonitorData.create]: one row holding the three metrics, each in its
    [DECIMAL(5, 2)] column, stamped by the column default [datetime.now]. *)
Definition create (clk : Clock) (db : DB) (sid : Z) (ip : string)
           (cpu mem disk : Q) : MonitorData * DB :=
  let row :=
    {| id := monitor_data_seq db + 1;
       server_id := sid;
       ip_address := ip;
       cpu_value := DECIMAL_5_2 cpu;
       memory_value := DECIMAL_5_2 mem;
       disk_value := DECIMAL_5_2 disk;
       recorded_at := now clk |} in
  (row, with_monitor_data db (monitor_data db ++ [row]) (monitor_data_seq db + 1)).

(** [MonitorData.create_by_ip]: raises [ValueError] when no server has
    the address; the store is returned as it was in that case. *)
Definition create_by_ip (clk : Clock) (db : DB) (ip : string)
           (cpu mem disk : Q) : result MonitorData * DB :=
  match Server_get_by_ip db ip with
  | None => (Raise ValueError, db)
  | Some server =>
      let '(row, db') := create clk db (server_pk server) ip cpu mem disk in
      (Ok row, db')
  end.

(** [order_by(recorded_at.desc())], as a stable insertion sort. *)
Fixpoint insert_desc (r : MonitorData) (l : list MonitorData) : list MonitorData :=
  match l with
  | [] => [r]
  | x :: tl =>
      if recorded_at x <? recorded_at r then r :: x :: tl
      else x :: insert_desc r tl
  end.

Definition order_by_recorded_at_desc (l : list MonitorData) : list MonitorData :=
  fold_right insert_desc [] l.

(** [MonitorData.get_by_ip]: the rows of the server recorded at or after
    [start_time], most recent first; no server, no rows. *)
Definition get_by_ip (db : DB) (ip : string) (start_time : Z) : list MonitorData :=
  match Server_get_by_ip db ip with
  | None => []
  | Some server =>
      order_by_recorded_at_desc
        (filter
           (fun r => Z.eqb (server_id r) (server_pk server)
                     && (start_time <=? recorded_at r))
           (monitor_data db))
  end.

(** What a Python call hands back when the source function has no typed
    result of its own. *)
Inductive pyvalue : Type :=
| PyNone
| PyInt (n : Z).

(** [MonitorData.delete_old_data(days=7)]: bulk delete of the rows with
    [recorded_at < now - days]; the function has no [return]. *)
Definition delete_old_data (clk : Clock) (db : DB) (days : option Z) : pyvalue * DB :=
  let days := match days with Some d => d | None => 7 end in
  let cutoff_date := now clk - timedelta_days days in
  let kept := filter (fun r => negb (recorded_at r <? cutoff_date)) (monitor_data db) in
  (PyNone, with_monitor_data db kept (monitor_data_seq db)).

(** [User.get_by_id] and [Server.get_by_id]: [query.get(id)]. *)
Definition User_get_by_id (db : DB) (uid : Z) : option User :=
  find (fun u => Z.eqb (user_id u) uid) (users db).

Definition Server_get_by_id (db : DB) (sid : Z) : option Server :=
  find (fun s => Z.eqb (server_pk s) sid) (servers db).

(** [Server.get_by_user]: the servers joined to the user through
    [server_users]. *)
Definition get_by_user (db : DB) (uid : Z) : list Server :=
  filter
    (fun s =>
       existsb (fun p => Z.eqb (fst p) (server_pk s) && Z.eqb (snd p) uid)
               (server_users db))
    (servers db).

(** [MonitorData.get_latest_by_server]:
    [filter_by(server_id=...).order_by(recorded_at.desc()).first()]. *)
Definition get_latest_by_server (db : DB) (sid : Z) : option MonitorData :=
  hd_error
    (order_by_recorded_at_desc
       (filter (fun r => Z.eqb (server_id r) sid) (monitor_data db))).

(** [Server.delete]: the samples of the server go first, then the server
    row, and with it its rows of the association table. *)
Definition Server_delete (db : DB) (sid : Z) : bool * DB :=
  match Server_get_by_id db sid with
  | Some _ =>
      (true,
       {| users := users db;
          servers := filter (fun s => negb (Z.eqb (server_pk s) sid)) (servers db);
          server_users := filter (fun p => negb (Z.eqb (fst p) sid)) (server_users db);
          monitor_data :=
            filter (fun r => negb (Z.eqb (server_id r) sid)) (monitor_data db);
          monitor_data_seq := monitor_data_seq db |})
  | None => (false, db)
  end.

(** [User.delete]: the user is taken out of the [users] of the servers,
    then the user row is deleted, and with it whatever rows of the
    association table still name the user. *)
Definition User_delete (db : DB) (uid : Z) : bool * DB :=
  match User_get_by_id db uid with
  | Some _ =>
      (true,
       {| users := filter (fun u => negb (Z.eqb (user_id u) uid)) (users db);
          servers := servers db;
          server_users := filter (fun p => negb (Z.eqb (snd p) uid)) (server_users db);
          monitor_data := monitor_data db;
          monitor_data_seq := monitor_data_seq db |})
  | None => (false, db)
  end.

End Models.

(** ** mail/simple_alert.py *)

Module Alert.

Import Models.

(** One entry of [DEFAULT_THRESHOLDS]: the dict with the keys
    ['warning'], ['critical'] and ['emergency']. *)
Record Thresholds : Type := mkThresholds {
  warning : Q;
  critical : Q;
  emergency : Q
}.

(** [thresholds[key]]. *)
Definition thresholds_getitem (th : Thresholds) (key : string) : result Q :=
  if String.eqb key "warning" then Ok (warning th)
  else if String.eqb key "critical" then Ok (critical th)
  else if String.eqb key "emergency" then Ok (emergency th)
  else Raise KeyError.

(** [x >= y] on numbers. *)
Definition ge (x y : Q) : bool := Qle_bool y x.

(** [determine_alert_level]: a level name, or [None]. *)
Definition determine_alert_level (value : Q) (thresholds : Thresholds) : option string :=
  if ge value (emergency thresholds) then Some "emergency"
  else if ge value (critical thresholds) then Some "critical"
  else if ge value (warning thresholds) then Some "warning"
  else None.

(** [float(n)] for a list length or a counter. Python converts the
    length to a float for the product and compares the integer counter
    with a float by value; both are exact below 2^53. *)
Definition float_of_nat (n : nat) : float :=
  PrimFloat.of_uint63 (Uint63.of_Z (Z.of_nat n)).

(** The binary64 constant written [0.8] in the source. *)
Definition f0_8 : float := 0x1.999999999999ap-1%float.

(** [sustained_count >= len(recent_data) * 0.8]. *)
Definition sustained_fraction_met (sustained_count len : nat) : bool :=
  PrimFloat.leb (PrimFloat.mul (float_of_nat len) f0_8) (float_of_nat sustained_count).

(** The body of the counting loop of [check_sustained_alert_by_ip]. *)
Definition sustained_step (metric_type : string) (threshold_value : Q)
           (sustained_count : nat) (data : MonitorData) : nat :=
  if String.eqb metric_type "cpu" && ge (cpu_value data) threshold_value
  then S sustained_count
  else if String.eqb metric_type "memory" && ge (memory_value data) threshold_value
  then S sustained_count
  else if String.eqb metric_type "disk" && ge (disk_value data) threshold_value
  then S sustained_count
  else sustained_count.

Definition sustained_count (metric_type : string) (threshold_value : Q)
           (recent_data : list MonitorData) : nat :=
  fold_left (sustained_step metric_type threshold_value) recent_data 0%nat.

(** The log of the calls of [send_alert_email]: recipient and outcome. *)
Definition maillog : Type := list (string * bool).

Section Engine.

(** [config.settings.DEFAULT_THRESHOLDS], a dict keyed by metric type. *)
Variable DEFAULT_THRESHOLDS : string -> option Thresholds.

(** [ALERT_TEMPLATES[level].format(server_name, metric_type, value,
    threshold)]: the message, or nothing when the lookup or the
    formatting raises. *)
Variable render : string -> string -> string -> Q -> Q -> option string.

(** The SMTP session of [send_alert_email]: whether login and [sendmail]
    went through, for the n-th call, a recipient and a body. *)
Variable smtp : nat -> string -> string -> bool.

Definition DEFAULT_THRESHOLDS_getitem (metric_type : string) : result Thresholds :=
  match DEFAULT_THRESHOLDS metric_type with
  | Some th => Ok th
  | None => Raise KeyError
  end.

(** [check_sustained_alert_by_ip(ip_address, metric_type, value, minutes=1)]. *)
Definition check_sustained_alert_by_ip (db : DB) (clk : Clock) (ip : string)
           (metric_type : string) (value : Q) (minutes : option Z) : result bool :=
  let minutes := match minutes with Some m => m | None => 1 end in
  let start_time := utcnow clk - timedelta_minutes minutes in
  let recent_data := get_by_ip db ip start_time in
  if (List.length recent_data <? 3)%nat then Ok false
  else
    let* thresholds := DEFAULT_THRESHOLDS_getitem metric_type in
    match determine_alert_level value thresholds with
    | None => Ok false
    | Some alert_level =>
        let* threshold_value := thresholds_getitem thresholds alert_level in
        let count := sustained_count metric_type threshold_value recent_data in
        Ok (sustained_fraction_met count (List.length recent_data))
    end.

(** [get_threshold_by_level]. *)
Definition get_threshold_by_level (level metric_type : string) : result Q :=
  let* thresholds := DEFAULT_THRESHOLDS_getitem metric_type in
  if String.eqb level "emergency" then Ok (emergency thresholds)
  else if String.eqb level "critical" then Ok (critical thresholds)
  else if String.eqb level "warning" then Ok (warning thresholds)
  else Ok 0%Q.

(** [send_alert_email]: every exception is caught and turned into
    [False]. [sent] is the number of calls made before this one. *)
Definition send_alert_email (sent : nat) (email server_name metric_type : string)
           (value : Q) (level : string) : bool :=
  match get_threshold_by_level level metric_type with
  | Raise _ => false
  | Ok threshold =>
      match render level server_name metric_type value threshold with
      | None => false
      | Some message => smtp sent email message
      end
  end.

(** The body of the mail loop of [check_and_send_alert_by_ip]; the state
    is [success_count] and the log. *)
Definition send_step (server : Server) (metric_type : string) (value : Q)
           (alert_level : string) (st : nat * maillog) (user : User) : nat * maillog :=
  let '(success_count, log) := st in
  let success :=
    send_alert_email (List.length log) (email user) (server_name server)
                     metric_type value alert_level in
  (if success then S success_count else success_count,
   log ++ [(email user, success)]).

(** [check_and_send_alert_by_ip]: the verdict and the log after it. *)
Definition check_and_send_alert_by_ip (db : DB) (clk : Clock) (log : maillog)
           (ip : string) (metric_type : string) (value : Q) : bool * maillog :=
  match Server_get_by_ip db ip with
  | None => (false, log)
  | Some server =>
      let alert_users := get_alert_users db server in
      match alert_users with
      | [] => (false, log)
      | _ :: _ =>
          match DEFAULT_THRESHOLDS_getitem metric_type with
          | Raise _ => (false, log)
          | Ok thresholds =>
              match determine_alert_level value thresholds with
              | None => (true, log)
              | Some alert_level =>
                  match check_sustained_alert_by_ip db clk ip metric_type value (Some 5) with
                  | Raise _ => (false, log)
                  | Ok false => (true, log)
                  | Ok true =>
                      let '(success_count, log') :=
                        fold_left (send_step server metric_type value alert_level)
                                  alert_users (0%nat, log) in
                      ((0 <? success_count)%nat, log')
                  end
              end
          end
      end
  end.

End Engine.

End Alert.

Import Models Alert.

(** ** Reference readings used to state the properties *)

(** The severity order none < warning < critical < emergency. *)
Definition level_rank (level : option string) : nat :=
  match level with
  | None => 0
  | Some name =>
      if String.eqb name "warning" then 1
      else if String.eqb name "critical" then 2
      else if String.eqb name "emergency" then 3
      else 0
  end.

(** The column of a sample that carries a metric kind. *)
Definition metric_value (metric_type : string) (data : MonitorData) : option Q :=
  if String.eqb metric_type "cpu" then Some (cpu_value data)
  else if String.eqb metric_type "memory" then Some (memory_value data)
  else if String.eqb metric_type "disk" then Some (disk_value data)
  else None.

Definition meets_boundary (metric_type : string) (boundary : Q) (data : MonitorData) : bool :=
  match metric_value metric_type data with
  | Some v => ge v boundary
  | None => false
  end.

(** The number of samples whose value for the metric kind is at or above
    the boundary. *)
Definition count_meeting (metric_type : string) (boundary : Q)
           (samples : list MonitorData) : nat :=
  List.length (filter (meets_boundary metric_type boundary) samples).

(** The window the check reads: the samples of the address recorded in
    the last [minutes] minutes ([minutes=1] when the argument is left
    out). *)
Definition window (db : DB) (clk : Clock) (ip : string) (minutes : option Z)
  : list MonitorData :=
  get_by_ip db ip
    (utcnow clk - timedelta_minutes (match minutes with Some m => m | None => 1 end)).

(** The samples of the address recorded in the last [minutes] minutes,
    by the clock that stamped them. *)
Definition last_minutes (db : DB) (clk : Clock) (ip : string) (minutes : Z)
  : list MonitorData :=
  get_by_ip db ip (now clk - timedelta_minutes minutes).

(** The 80% test in exact arithmetic: [count >= 4/5 * total]. *)
Definition fraction_met_exact (count total : nat) : bool :=
  (4 * Z.of_nat total <=? 5 * Z.of_nat count).

(** Agreement of the binary64 test with the exact one, for every total
    below [bound] and every count up to the total. *)
Fixpoint fraction_agree_below (bound : nat) : bool :=
  match bound with
  | O => true
  | S total =>
      fraction_agree_below total
      && forallb
           (fun count =>
              Bool.eqb (sustained_fraction_met count total)
                       (fraction_met_exact count total))
           (seq 0 (S total))
  end.

(** The same agreement with binary counters: one pair, the counts from
    [count] on for one total, and the totals from [total] on with every
    count up to the total. *)
Definition fraction_pair_ok (total count : Z) : bool :=
  Bool.eqb
    (PrimFloat.leb
       (PrimFloat.mul (PrimFloat.of_uint63 (Uint63.of_Z total)) f0_8)
       (PrimFloat.of_uint63 (Uint63.of_Z count)))
    (4 * total <=? 5 * count).

Fixpoint fraction_counts_ok (fuel : nat) (total count : Z) : bool :=
  match fuel with
  | O => true
  | S k => fraction_pair_ok total count && fraction_counts_ok k total (count + 1)
  end.

Fixpoint fraction_totals_ok (fuel : nat) (total : Z) : bool :=
  match fuel with
  | O => true
  | S k =>
      fraction_counts_ok (S (Z.to_nat total)) total 0
      && fraction_totals_ok k (total + 1)
  end.

(** Counters of a mail log. *)
Definition attempted (log : maillog) : nat := List.length log.
Definition succeeded (log : maillog) : nat := List.length (filter snd log).

(** Rows a purge took out of the sample table. *)
Definition rows_removed (before after : DB) : nat :=
  List.length (monitor_data before) - List.length (monitor_data after).

(** The horizon of a purge. *)
Definition cutoff_date (clk : Clock) (days : option Z) : Z :=
  now clk - timedelta_days (match days with Some d => d | None => 7 end).

(** Most recent first. *)
Definition recent_first (rows : list MonitorData) : Prop :=
  StronglySorted (fun a b => recorded_at b <= recorded_at a) rows.

(** The metric kinds the counting loop knows. *)
Definition known_kind (metric_type : string) : bool :=
  String.eqb metric_type "cpu" || String.eqb metric_type "memory"
  || String.eqb metric_type "disk".

Section Deliveries.

Variable DEFAULT_THRESHOLDS : string -> option Thresholds.
Variable render : string -> string -> string -> Q -> Q -> option string.
Variable smtp : nat -> string -> string -> bool.

(** One call of [send_alert_email] per recipient, in order, each logged
    with its own outcome; [sent] calls were made before the first. *)
Fixpoint deliveries (server : Server) (metric_type : string) (value : Q)
         (level : string) (sent : nat) (recipients : list User) : maillog :=
  match recipients with
  | [] => []
  | user :: rest =>
      (email user,
       send_alert_email DEFAULT_THRESHOLDS render smtp sent (email user)
                        (server_name server) metric_type value level)
        :: deliveries server metric_type value level (S sent) rest
  end.

End Deliveries.

(** ** Fixtures *)

Module Fixtures.

(** The table of [config/production.py]. *)
Definition production_thresholds (metric_type : string) : option Thresholds :=
  if String.eqb metric_type "cpu" then Some (mkThresholds 70 85 95)
  else if String.eqb metric_type "memory" then Some (mkThresholds 75 85 95)
  else if String.eqb metric_type "disk" then Some (mkThresholds 80 90 95)
  else None.

Definition plain_render (level server_name metric_type : string) (value threshold : Q)
  : option string := Some level.

(** A transport that fails for one address only. *)
Definition smtp_flaky (sent : nat) (recipient message : string) : bool :=
  negb (String.eqb recipient "bob@example.org").

Definition alice : User := mkUser 1 "alice" "alice@example.org".
Definition bob : User := mkUser 2 "bob" "bob@example.org".
Definition carol : User := mkUser 3 "carol" "carol@example.org".

Definition web1 : Server := mkServer 1 "web1" "10.0.0.5".
Definition db1 : Server := mkServer 2 "db1" "10.0.0.6".

Definition minute : Z := 60000000.

(** Noon, with a local clock that agrees with UTC. *)
Definition noon : Clock := mkClock (720 * minute) (720 * minute).

Definition sample (n : Z) (server : Server) (cpu : Q) (age_minutes : Z) : MonitorData :=
  mkMonitorData n (server_pk server) (server_ip server) cpu 40 40
                (720 * minute - age_minutes * minute).

(** [web1] has three recipients and four cpu samples in the last five
    minutes; [db1] has three samples as well but no recipient. *)
Definition store : DB :=
  mkDB [alice; bob; carol] [web1; db1] [(1, 1); (1, 2); (1, 3)]
       [sample 1 web1 86 4; sample 2 db1 96 4;
        sample 3 web1 90 3; sample 4 db1 97 3;
        sample 5 web1 91 2; sample 6 db1 98 2;
        sample 7 web1 88 1]
       7.

(** A server with five samples in the window, four of them fixed; the
    cpu value of the fifth is left open. *)
Definition app1 : Server := mkServer 3 "app1" "10.0.0.7".

Definition store_five (cpu5 : Q) : DB :=
  mkDB [alice] [app1] [(3, 1)]
       [sample 1 app1 86 4; sample 2 app1 60 4; sample 3 app1 90 3;
        sample 4 app1 88 2; sample 5 app1 cpu5 1]
       5.

(** A server whose samples are far apart: two in the last five minutes
    and two from earlier in the morning, all above the emergency boundary. *)
Definition edge1 : Server := mkServer 4 "edge1" "10.0.0.8".

Definition store_sparse : DB :=
  mkDB [alice] [edge1] [(4, 1)]
       [sample 1 edge1 96 200; sample 2 edge1 97 100;
        sample 3 edge1 98 2; sample 4 edge1 99 1]
       4.

(** Noon local time on a host eight hours ahead of UTC, and on a host
    five hours behind it. *)
Definition noon_ahead : Clock := mkClock (720 * minute) (240 * minute).
Definition noon_behind : Clock := mkClock (720 * minute) (1020 * minute).

End Fixtures.

(** ** The threshold evaluator *)

Lemma ge_true (x y : Q) : ge x y = true <-> (y <= x)%Q.
Proof. unfold ge. apply Qle_bool_iff. Qed.

Lemma ge_false (x y : Q) : ge x y = false <-> (x < y)%Q.
Proof.
  unfold ge. split; intro H.
  - apply Qnot_le_lt. intro Hle. apply Qle_bool_iff in Hle. congruence.
  - destruct (Qle_bool y x) eqn:E; [|reflexivity].
    apply Qle_bool_iff in E. exfalso. apply (Qlt_not_le _ _ H E).
Qed.

(** The cascade of [determine_alert_level], read off one comparison at a
    time. *)
Lemma determine_alert_level_cases (v : Q) (th : Thresholds) :
  (ge v (emergency th) = true /\ determine_alert_level v th = Some "emergency")
  \/ (ge v (emergency th) = false /\ ge v (critical th) = true
      /\ determine_alert_level v th = Some "critical")
  \/ (ge v (emergency th) = false /\ ge v (critical th) = false
      /\ ge v (warning th) = true /\ determine_alert_level v th = Some "warning")
  \/ (ge v (emergency th) = false /\ ge v (critical th) = false
      /\ ge v (warning th) = false /\ determine_alert_level v th = None).
Proof.
  unfold determine_alert_level.
  destruct (ge v (emergency th)); [now left|].
  destruct (ge v (critical th)); [now right; left|].
  destruct (ge v (warning th)); [now right; right; left|].
  now right; right; right.
Qed.

Ltac level_cases v th :=
  let H := fresh "Hcase" in
  destruct (determine_alert_level_cases v th)
    as [H | [H | [H | H]]];
  repeat match type of H with
         | _ /\ _ => let H1 := fresh "Hcmp" in destruct H as [H1 H]
         end;
  repeat match goal with
         | Hc : ge _ _ = true |- _ => apply ge_true in Hc
         | Hc : ge _ _ = false |- _ => apply ge_false in Hc
         end;
  rewrite H.

(** A level that the evaluator returns is a key of the threshold dict. *)
Lemma determine_alert_level_key (v : Q) (th : Thresholds) (lvl : string) :
  determine_alert_level v th = Some lvl ->
  exists boundary, thresholds_getitem th lvl = Ok boundary.
Proof.
  destruct (determine_alert_level_cases v th)
    as [[_ H] | [[_ [_ H]] | [[_ [_ [_ H]]] | [_ [_ [_ H]]]]]];
    rewrite H; intro E; inversion E; subst; eexists; reflexivity.
Qed.

(** C2. With warning < critical < emergency, the evaluator tests the
    value against emergency, then critical, then warning with inclusive
    comparisons and returns the first level that matches, or none below
    all three; so the emergency boundary itself is emergency, the critical
    boundary itself is critical, and any value from warning up to but
    excluding critical is warning. *)
Theorem determine_alert_level_boundaries (v : Q) (th : Thresholds) :
  (warning th < critical th)%Q ->
  (critical th < emergency th)%Q ->
  ((emergency th <= v)%Q -> determine_alert_level v th = Some "emergency")
  /\ ((critical th <= v)%Q -> (v < emergency th)%Q ->
      determine_alert_level v th = Some "critical")
  /\ ((warning th <= v)%Q -> (v < critical th)%Q ->
      determine_alert_level v th = Some "warning")
  /\ ((v < warning th)%Q -> determine_alert_level v th = None)
  /\ determine_alert_level (emergency th) th = Some "emergency"
  /\ determine_alert_level (critical th) th = Some "critical"
  /\ (forall eps : Q,
         (warning th <= critical th - eps)%Q ->
         (critical th - eps < critical th)%Q ->
         determine_alert_level (critical th - eps) th = Some "warning").
Proof.
  intros Hwc Hce.
  assert (Hgen : forall x : Q,
             ((emergency th <= x)%Q -> determine_alert_level x th = Some "emergency")
             /\ ((critical th <= x)%Q -> (x < emergency th)%Q ->
                 determine_alert_level x th = Some "critical")
             /\ ((warning th <= x)%Q -> (x < critical th)%Q ->
                 determine_alert_level x th = Some "warning")
             /\ ((x < warning th)%Q -> determine_alert_level x th = None)).
  { intro x. repeat split; intros; level_cases x th;
      first [reflexivity | exfalso; lra]. }
  destruct (Hgen v) as (He & Hc & Hw & Hn).
  repeat split; try assumption.
  - apply (Hgen (emergency th)). lra.
  - apply (Hgen (critical th)); lra.
  - intros eps H1 H2. apply (Hgen (critical th - eps)%Q); assumption.
Qed.

(** C10. With warning <= critical <= emergency, the evaluator always
    returns one of none, warning, critical and emergency, and a larger
    value never gets a lower level. *)
Theorem determine_alert_level_monotone (v1 v2 : Q) (th : Thresholds) :
  (warning th <= critical th)%Q ->
  (critical th <= emergency th)%Q ->
  (v1 <= v2)%Q ->
  In (determine_alert_level v1 th)
     [None; Some "warning"; Some "critical"; Some "emergency"]
  /\ In (determine_alert_level v2 th)
        [None; Some "warning"; Some "critical"; Some "emergency"]
  /\ (level_rank (determine_alert_level v1 th)
      <= level_rank (determine_alert_level v2 th))%nat.
Proof.
  intros Hwc Hce Hv.
  level_cases v1 th; level_cases v2 th; simpl;
    repeat split; auto 6; try lia; exfalso; lra.
Qed.

(** ** The sustained-alert check *)

(** One turn of the counting loop adds one exactly when the sample's own
    column for the metric kind reaches the threshold. *)
Lemma sustained_step_meets (metric_type : string) (b : Q) (n : nat) (d : MonitorData) :
  sustained_step metric_type b n d
  = if meets_boundary metric_type b d then S n else n.
Proof.
  unfold sustained_step, meets_boundary, metric_value.
  destruct (String.eqb_spec metric_type "cpu") as [->|_]; simpl.
  - destruct (ge (cpu_value d) b); reflexivity.
  - destruct (String.eqb_spec metric_type "memory") as [->|_]; simpl.
    + destruct (ge (memory_value d) b); reflexivity.
    + destruct (String.eqb_spec metric_type "disk") as [->|_]; simpl.
      * destruct (ge (disk_value d) b); reflexivity.
      * reflexivity.
Qed.

Lemma sustained_count_from (metric_type : string) (b : Q) (l : list MonitorData) :
  forall n : nat,
    fold_left (sustained_step metric_type b) l n
    = (n + count_meeting metric_type b l)%nat.
Proof.
  unfold count_meeting.
  induction l as [|d l IH]; intro n; simpl.
  - lia.
  - rewrite IH, sustained_step_meets.
    destruct (meets_boundary metric_type b d); simpl; lia.
Qed.

(** The loop counts the samples of the metric kind at or above the
    threshold. *)
Lemma sustained_count_spec (metric_type : string) (b : Q) (l : list MonitorData) :
  sustained_count metric_type b l = count_meeting metric_type b l.
Proof. unfold sustained_count. now rewrite sustained_count_from. Qed.

Lemma count_meeting_le (metric_type : string) (b : Q) (l : list MonitorData) :
  (count_meeting metric_type b l <= List.length l)%nat.
Proof. unfold count_meeting. apply filter_length_le. Qed.

(** The rounding of [len * 0.8] never changes the verdict for windows
    of up to 200 samples. *)
Lemma fraction_agree_200 : fraction_agree_below 201 = true.
Proof. vm_compute. reflexivity. Qed.

Lemma fraction_agree_below_sound (bound : nat) :
  fraction_agree_below bound = true ->
  forall total count : nat,
    (total < bound)%nat -> (count <= total)%nat ->
    sustained_fraction_met count total = fraction_met_exact count total.
Proof.
  induction bound as [|k IH]; intros Hb total count Ht Hc; [lia|].
  cbn [fraction_agree_below] in Hb.
  apply andb_prop in Hb as [Hprev Hrow].
  destruct (Nat.eq_dec total k) as [->|Hne].
  - rewrite forallb_forall in Hrow.
    apply eqb_prop, Hrow, in_seq. lia.
  - apply IH; [assumption | lia | assumption].
Qed.

Lemma sustained_fraction_exact (count total : nat) :
  (total <= 200)%nat -> (count <= total)%nat ->
  (sustained_fraction_met count total = true
   <-> 4 * Z.of_nat total <= 5 * Z.of_nat count).
Proof.
  intros Ht Hc.
  rewrite (fraction_agree_below_sound 201 fraction_agree_200) by lia.
  unfold fraction_met_exact. apply Z.leb_le.
Qed.

Lemma fraction_counts_ok_sound (fuel : nat) (total : Z) :
  forall first : Z,
    fraction_counts_ok fuel total first = true ->
    forall count : Z,
      first <= count < first + Z.of_nat fuel ->
      fraction_pair_ok total count = true.
Proof.
  induction fuel as [|k IH]; intros first Hok count Hc; [lia|].
  cbn [fraction_counts_ok] in Hok. apply andb_prop in Hok as [Hhere Hrest].
  destruct (Z.eq_dec count first) as [->|Hne]; [exact Hhere|].
  apply (IH (first + 1) Hrest). lia.
Qed.

Lemma fraction_totals_ok_sound (fuel : nat) :
  forall first : Z,
    fraction_totals_ok fuel first = true ->
    0 <= first ->
    forall total count : Z,
      first <= total < first + Z.of_nat fuel ->
      0 <= count <= total ->
      fraction_pair_ok total count = true.
Proof.
  induction fuel as [|k IH]; intros first Hok Hfirst total count Ht Hc; [lia|].
  cbn [fraction_totals_ok] in Hok. apply andb_prop in Hok as [Hrow Hrest].
  destruct (Z.eq_dec total first) as [->|Hne].
  - apply (fraction_counts_ok_sound _ _ 0 Hrow). lia.
  - apply (IH (first + 1) Hrest); lia.
Qed.

(** The rounding of [len * 0.8] never changes the verdict for windows
    of up to 2000 samples. *)
Lemma fraction_totals_2000 : fraction_totals_ok 2001 0 = true.
Proof. vm_compute. reflexivity. Qed.

Lemma sustained_fraction_exact_2000 (count total : nat) :
  (total <= 2000)%nat -> (count <= total)%nat ->
  (sustained_fraction_met count total = true
   <-> 4 * Z.of_nat total <= 5 * Z.of_nat count).
Proof.
  intros Ht Hc.
  assert (Hpair : fraction_pair_ok (Z.of_nat total) (Z.of_nat count) = true).
  { apply (fraction_totals_ok_sound 2001 0 fraction_totals_2000); lia. }
  unfold fraction_pair_ok in Hpair. apply eqb_prop in Hpair.
  unfold sustained_fraction_met, float_of_nat. rewrite Hpair. apply Z.leb_le.
Qed.

Section SustainedCheck.

Variable DEFAULT_THRESHOLDS : string -> option Thresholds.

(** X23. When the check fetches at least 3 samples and the current value
    has a level, the boundary is the threshold of that level: emergency,
    critical or warning. The check counts the fetched samples of the
    metric kind at or above it and answers whether that count reaches 0.8
    times the number fetched, which for up to 2000 samples is exactly
    whether 5 * count >= 4 * total; 4 of 5 is sustained, 3 of 5 is not. *)
Theorem check_sustained_fraction (db : DB) (clk : Clock) (ip metric_type : string)
        (value : Q) (minutes : option Z) (th : Thresholds) (lvl : string) :
  (3 <= List.length (window db clk ip minutes))%nat ->
  DEFAULT_THRESHOLDS metric_type = Some th ->
  determine_alert_level value th = Some lvl ->
  exists boundary : Q,
    ((lvl = "emergency" /\ boundary = emergency th)
     \/ (lvl = "critical" /\ boundary = critical th)
     \/ (lvl = "warning" /\ boundary = warning th))
    /\ let total := List.length (window db clk ip minutes) in
       let count := count_meeting metric_type boundary (window db clk ip minutes) in
       let answer :=
         check_sustained_alert_by_ip DEFAULT_THRESHOLDS db clk ip metric_type value minutes in
       answer = Ok (sustained_fraction_met count total)
       /\ ((total <= 2000)%nat ->
           (answer = Ok true <-> 4 * Z.of_nat total <= 5 * Z.of_nat count))
       /\ (total = 5%nat -> count = 4%nat -> answer = Ok true)
       /\ (total = 5%nat -> count = 3%nat -> answer = Ok false).
Proof.
  intros Hlen Hth Hlvl.
  assert (Hb : exists boundary : Q,
             thresholds_getitem th lvl = Ok boundary
             /\ ((lvl = "emergency" /\ boundary = emergency th)
                 \/ (lvl = "critical" /\ boundary = critical th)
                 \/ (lvl = "warning" /\ boundary = warning th))).
  { revert Hlvl. level_cases value th; intro E; inversion E; subst;
      eexists; (split; [reflexivity|]); auto. }
  destruct Hb as (boundary & Hget & Hwhich).
  exists boundary. split; [exact Hwhich|].
  cbv zeta.
  assert (Hans :
            check_sustained_alert_by_ip DEFAULT_THRESHOLDS db clk ip metric_type value minutes
            = Ok (sustained_fraction_met
                    (count_meeting metric_type boundary (window db clk ip minutes))
                    (List.length (window db clk ip minutes)))).
  { unfold check_sustained_alert_by_ip. fold (window db clk ip minutes).
    destruct (Nat.ltb_spec (List.length (window db clk ip minutes)) 3); [lia|].
    unfold DEFAULT_THRESHOLDS_getitem. rewrite Hth. cbn [bind].
    rewrite Hlvl, Hget. cbn [bind].
    now rewrite sustained_count_spec. }
  rewrite Hans. split; [reflexivity|]. split; [intro H; split|split].
  - intro E. inversion E as [E'].
    now apply (sustained_fraction_exact_2000 _ _ H (count_meeting_le _ _ _)).
  - intro E. f_equal.
    now apply (sustained_fraction_exact_2000 _ _ H (count_meeting_le _ _ _)).
  - intros -> ->. reflexivity.
  - intros -> ->. reflexivity.
Qed.

(** X24. When the check fetches fewer than 3 samples it answers false,
    whatever the samples, the metric kind and the current value are, and
    whether or not the metric kind has thresholds. *)
Theorem check_sustained_few_samples (db : DB) (clk : Clock) (ip metric_type : string)
        (value : Q) (minutes : option Z) :
  (List.length (window db clk ip minutes) < 3)%nat ->
  check_sustained_alert_by_ip DEFAULT_THRESHOLDS db clk ip metric_type value minutes
  = Ok false.
Proof.
  intro Hlen.
  unfold check_sustained_alert_by_ip. fold (window db clk ip minutes).
  destruct (Nat.ltb_spec (List.length (window db clk ip minutes)) 3); [reflexivity|lia].
Qed.

(** Leaving [minutes] out is asking for one minute. *)
Lemma check_sustained_default_is_one_minute (db : DB) (clk : Clock)
      (ip metric_type : string) (value : Q) :
  check_sustained_alert_by_ip DEFAULT_THRESHOLDS db clk ip metric_type value None
  = check_sustained_alert_by_ip DEFAULT_THRESHOLDS db clk ip metric_type value (Some 1).
Proof. reflexivity. Qed.

End SustainedCheck.

(** ** The mail loop *)

Section Dispatch.

Variable DEFAULT_THRESHOLDS : string -> option Thresholds.
Variable render : string -> string -> string -> Q -> Q -> option string.
Variable smtp : nat -> string -> string -> bool.

Abbreviation deliveries' := (deliveries DEFAULT_THRESHOLDS render smtp).
Abbreviation check_and_send := (check_and_send_alert_by_ip DEFAULT_THRESHOLDS render smtp).

Lemma succeeded_cons (entry : string * bool) (log : maillog) :
  succeeded (entry :: log)
  = if snd entry then S (succeeded log) else succeeded log.
Proof. unfold succeeded. simpl. now destruct (snd entry). Qed.

Lemma deliveries_recipients (server : Server) (metric_type : string) (value : Q)
      (level : string) (recipients : list User) :
  forall sent : nat,
    map fst (deliveries' server metric_type value level sent recipients)
    = map email recipients.
Proof.
  induction recipients as [|u rest IH]; intro sent; simpl; [reflexivity|].
  f_equal. apply IH.
Qed.

Lemma deliveries_attempted (server : Server) (metric_type : string) (value : Q)
      (level : string) (recipients : list User) :
  forall sent : nat,
    attempted (deliveries' server metric_type value level sent recipients)
    = List.length recipients.
Proof.
  unfold attempted.
  induction recipients as [|u rest IH]; intro sent; simpl; [reflexivity|].
  f_equal. apply IH.
Qed.

(** The i-th recipient gets its own call, whatever happened to the ones
    before. *)
Lemma deliveries_nth (server : Server) (metric_type : string) (value : Q)
      (level : string) (recipients : list User) :
  forall (sent i : nat) (u : User),
    nth_error recipients i = Some u ->
    nth_error (deliveries' server metric_type value level sent recipients) i
    = Some (email u,
            send_alert_email DEFAULT_THRESHOLDS render smtp (sent + i) (email u)
                             (server_name server) metric_type value level).
Proof.
  induction recipients as [|x rest IH]; intros sent i u Hnth.
  - destruct i; discriminate.
  - destruct i as [|i]; cbn [nth_error] in Hnth.
    + inversion Hnth; subst. cbn. now rewrite Nat.add_0_r.
    + replace (sent + S i)%nat with (S sent + i)%nat by lia.
      rewrite <- (IH (S sent) i u Hnth). reflexivity.
Qed.

(** The loop of [check_and_send_alert_by_ip] visits every recipient. *)
Lemma send_loop_spec (server : Server) (metric_type : string) (value : Q)
      (level : string) (recipients : list User) :
  forall (n : nat) (log : maillog),
    fold_left (send_step DEFAULT_THRESHOLDS render smtp server metric_type value level)
              recipients (n, log)
    = ((n + succeeded
              (deliveries' server metric_type value level (List.length log) recipients))%nat,
       log ++ deliveries' server metric_type value level (List.length log) recipients).
Proof.
  induction recipients as [|u rest IH]; intros n log.
  - simpl. unfold succeeded. simpl. now rewrite Nat.add_0_r, app_nil_r.
  - cbn [fold_left send_step]. rewrite IH.
    rewrite length_app. cbn [List.length]. rewrite Nat.add_1_r.
    cbn [deliveries]. rewrite succeeded_cons. cbn [snd].
    rewrite <- app_assoc. cbn [app].
    destruct (send_alert_email DEFAULT_THRESHOLDS render smtp (List.length log)
                (email u) (server_name server) metric_type value level);
      f_equal; lia.
Qed.

(** C5, amended. An entity without recipients still takes samples, each
    metric stored to two decimals; an alert for it attempts no delivery
    and the call reports failure. *)
Theorem dispatch_no_recipients (db : DB) (clk : Clock) (log : maillog)
        (ip metric_type : string) (value cpu mem disk : Q) (server : Server) :
  Server_get_by_ip db ip = Some server ->
  get_alert_users db server = [] ->
  check_and_send db clk log ip metric_type value = (false, log)
  /\ exists row : MonitorData,
      create_by_ip clk db ip cpu mem disk
      = (Ok row,
         with_monitor_data db (monitor_data db ++ [row]) (monitor_data_seq db + 1))
      /\ server_id row = server_pk server
      /\ recorded_at row = now clk
      /\ cpu_value row = DECIMAL_5_2 cpu
      /\ memory_value row = DECIMAL_5_2 mem
      /\ disk_value row = DECIMAL_5_2 disk.
Proof.
  intros Hsrv Husers. split.
  - unfold check_and_send_alert_by_ip.
    now rewrite Hsrv, Husers.
  - unfold create_by_ip. rewrite Hsrv. cbn [create].
    eexists. split; [reflexivity|].
    cbn [server_id recorded_at cpu_value memory_value disk_value].
    repeat split.
Qed.

(** C6, amended. Once an alert is due, every recipient of the entity
    gets exactly one delivery attempt, in order, and each attempt has the
    outcome of its own call, so a failure does not stop the later ones;
    the call reports success exactly when at least one attempt succeeded
    (with no recipient it reports failure). *)
Theorem dispatch_each_recipient (db : DB) (clk : Clock) (log : maillog)
        (ip metric_type : string) (value : Q) (server : Server)
        (th : Thresholds) (lvl : string) :
  Server_get_by_ip db ip = Some server ->
  DEFAULT_THRESHOLDS metric_type = Some th ->
  determine_alert_level value th = Some lvl ->
  check_sustained_alert_by_ip DEFAULT_THRESHOLDS db clk ip metric_type value (Some 5)
  = Ok true ->
  exists sent : maillog,
    check_and_send db clk log ip metric_type value
    = ((0 <? succeeded sent)%nat, log ++ sent)
    /\ map fst sent = map email (get_alert_users db server)
    /\ attempted sent = List.length (get_alert_users db server)
    /\ (forall (i : nat) (u : User),
           nth_error (get_alert_users db server) i = Some u ->
           nth_error sent i
           = Some (email u,
                   send_alert_email DEFAULT_THRESHOLDS render smtp
                                    (List.length log + i) (email u)
                                    (server_name server) metric_type value lvl)).
Proof.
  intros Hsrv Hth Hlvl Hsus.
  exists (deliveries' server metric_type value lvl (List.length log)
                      (get_alert_users db server)).
  split; [|split; [apply deliveries_recipients|split;
                   [apply deliveries_attempted|apply deliveries_nth]]].
  unfold check_and_send_alert_by_ip.
  rewrite Hsrv.
  destruct (get_alert_users db server) as [|u rest] eqn:Eu.
  - cbn. now rewrite app_nil_r.
  - unfold DEFAULT_THRESHOLDS_getitem at 1. rewrite Hth, Hlvl, Hsus.
    now rewrite send_loop_spec.
Qed.

End Dispatch.

(** ** The sample store *)

Lemma filter_all {A : Type} (p : A -> bool) (l : list A) :
  (forall x : A, In x l -> p x = true) -> filter p l = l.
Proof.
  induction l as [|a l IH]; intro H; simpl; [reflexivity|].
  rewrite (H a (or_introl eq_refl)). f_equal.
  apply IH. intros x Hx. apply H. now right.
Qed.

Lemma Server_get_by_ip_unknown (db : DB) (ip : string) :
  (forall s : Server, In s (servers db) -> server_ip s <> ip) ->
  Server_get_by_ip db ip = None.
Proof.
  intro H. unfold Server_get_by_ip.
  destruct (find (fun s => String.eqb (server_ip s) ip) (servers db)) as [s|] eqn:E;
    [|reflexivity].
  apply find_some in E as [Hin Heq].
  apply String.eqb_eq in Heq. now apply H in Hin.
Qed.

(** C7. An address that matches no server makes [create_by_ip] raise for
    the whole submission, and the store is left as it was. *)
Theorem create_by_ip_unknown_address (clk : Clock) (db : DB) (ip : string)
        (cpu mem disk : Q) :
  (forall s : Server, In s (servers db) -> server_ip s <> ip) ->
  create_by_ip clk db ip cpu mem disk = (Raise ValueError, db).
Proof.
  intro H. unfold create_by_ip.
  now rewrite (Server_get_by_ip_unknown db ip H).
Qed.

(** A purge that finds no row older than its horizon changes nothing. *)
Lemma delete_old_data_noop (clk : Clock) (db : DB) (days : option Z) :
  (forall r : MonitorData, In r (monitor_data db) -> cutoff_date clk days <= recorded_at r) ->
  snd (delete_old_data clk db days) = db.
Proof.
  intro H. unfold delete_old_data. cbn [snd].
  fold (cutoff_date clk days).
  rewrite filter_all.
  - now destruct db.
  - intros r Hr. apply H in Hr. apply negb_true_iff, Z.ltb_ge. exact Hr.
Qed.

Lemma delete_old_data_kept (clk : Clock) (db : DB) (days : option Z) (r : MonitorData) :
  In r (monitor_data (snd (delete_old_data clk db days)))
  <-> In r (monitor_data db) /\ cutoff_date clk days <= recorded_at r.
Proof.
  unfold delete_old_data. cbn [snd with_monitor_data monitor_data].
  fold (cutoff_date clk days).
  rewrite filter_In, negb_true_iff, Z.ltb_ge. reflexivity.
Qed.

(** Two purges under the same clock. *)
Lemma delete_old_data_twice (clk : Clock) (db : DB) (days : option Z) :
  snd (delete_old_data clk (snd (delete_old_data clk db days)) days)
  = snd (delete_old_data clk db days).
Proof.
  apply delete_old_data_noop. intros r Hr.
  now apply delete_old_data_kept in Hr.
Qed.

(** C8, amended. The purge deletes exactly the sample rows recorded
    before now minus the retention period, leaves every other row and
    table alone, and returns nothing: the number of rows removed is not
    reported. *)
Theorem delete_old_data_removes_old (clk : Clock) (db : DB) (days : option Z) :
  fst (delete_old_data clk db days) = PyNone
  /\ (forall r : MonitorData,
         In r (monitor_data (snd (delete_old_data clk db days)))
         <-> In r (monitor_data db) /\ ~ recorded_at r < cutoff_date clk days)
  /\ users (snd (delete_old_data clk db days)) = users db
  /\ servers (snd (delete_old_data clk db days)) = servers db
  /\ server_users (snd (delete_old_data clk db days)) = server_users db.
Proof.
  split; [reflexivity|]. split; [|now repeat split].
  intro r. rewrite delete_old_data_kept. split; intros [H1 H2]; split; auto; lia.
Qed.

(** C9. A second purge that meets no newly eligible row deletes nothing
    and leaves the store as the first purge left it. *)
Theorem delete_old_data_idempotent (clk clk' : Clock) (db : DB) (days : option Z) :
  (forall r : MonitorData,
      In r (monitor_data (snd (delete_old_data clk db days))) ->
      ~ recorded_at r < cutoff_date clk' days) ->
  snd (delete_old_data clk' (snd (delete_old_data clk db days)) days)
  = snd (delete_old_data clk db days)
  /\ rows_removed (snd (delete_old_data clk db days))
                  (snd (delete_old_data clk' (snd (delete_old_data clk db days)) days))
     = 0%nat.
Proof.
  intro H.
  assert (E : snd (delete_old_data clk' (snd (delete_old_data clk db days)) days)
              = snd (delete_old_data clk db days)).
  { apply delete_old_data_noop. intros r Hr. apply H in Hr. lia. }
  split; [exact E|].
  rewrite E. unfold rows_removed. lia.
Qed.

(** ** The properties on the fixtures *)

Import Fixtures.

(** C4. The window of a check that does not name one: the signature says
    [minutes=1] where its docstring and the specification say five
    minutes. On [web1] the four samples of the last five minutes are all
    at or above the critical boundary, yet the check without [minutes]
    sees a single sample and answers false. *)
Theorem check_sustained_default_window :
  List.length (window store noon "10.0.0.5" (Some 5%Z)) = 4%nat
  /\ check_sustained_alert_by_ip production_thresholds store noon
                                 "10.0.0.5" "cpu" 92 (Some 5%Z) = Ok true
  /\ List.length (window store noon "10.0.0.5" None) = 1%nat
  /\ check_sustained_alert_by_ip production_thresholds store noon
                                 "10.0.0.5" "cpu" 92 None = Ok false.
Proof. repeat split; vm_compute; reflexivity. Qed.

(** C1. The check takes its window from [datetime.utcnow] while the
    samples are stamped with [datetime.now]. On a host five hours behind
    UTC the last five minutes hold five samples, four of them at or above
    the critical boundary of the current value 92, and the check answers
    false where four of five is sustained; with the two clocks equal it
    answers true on the same store. *)
Theorem check_sustained_fraction_clock_mismatch :
  List.length (last_minutes (store_five 91) noon_behind "10.0.0.7" 5) = 5%nat
  /\ count_meeting "cpu" 85 (last_minutes (store_five 91) noon_behind "10.0.0.7" 5)
     = 4%nat
  /\ determine_alert_level 92 (mkThresholds 70 85 95) = Some "critical"
  /\ window (store_five 91) noon_behind "10.0.0.7" (Some 5%Z) = []
  /\ check_sustained_alert_by_ip production_thresholds (store_five 91) noon_behind
                                 "10.0.0.7" "cpu" 92 (Some 5%Z) = Ok false
  /\ check_sustained_alert_by_ip production_thresholds (store_five 91) noon
                                 "10.0.0.7" "cpu" 92 (Some 5%Z) = Ok true.
Proof. repeat split; vm_compute; reflexivity. Qed.

(** C3. On a host eight hours ahead of UTC the last five minutes hold
    only two samples, yet the check, whose window starts from
    [datetime.utcnow], fetches the two from earlier in the morning as well
    and answers true; with the two clocks equal it fetches the two recent
    ones, which both reach the boundary, and answers false. *)
Theorem check_sustained_floor_clock_mismatch :
  List.length (last_minutes store_sparse noon_ahead "10.0.0.8" 5) = 2%nat
  /\ List.length (window store_sparse noon_ahead "10.0.0.8" (Some 5%Z)) = 4%nat
  /\ check_sustained_alert_by_ip production_thresholds store_sparse noon_ahead
                                 "10.0.0.8" "cpu" 97 (Some 5%Z) = Ok true
  /\ List.length (window store_sparse noon "10.0.0.8" (Some 5%Z)) = 2%nat
  /\ count_meeting "cpu" 95 (window store_sparse noon "10.0.0.8" (Some 5%Z)) = 2%nat
  /\ check_sustained_alert_by_ip production_thresholds store_sparse noon
                                 "10.0.0.8" "cpu" 97 (Some 5%Z) = Ok false.
Proof. repeat split; vm_compute; reflexivity. Qed.

(** Five samples, current value 92 (critical, boundary 85): with 91 as
    the fifth sample four of five reach the boundary, with 50 only three
    do. *)
Example four_of_five_sustained :
  count_meeting "cpu" 85 (window (store_five 91) noon "10.0.0.7" (Some 5%Z)) = 4%nat
  /\ check_sustained_alert_by_ip production_thresholds (store_five 91) noon
                                 "10.0.0.7" "cpu" 92 (Some 5%Z) = Ok true.
Proof. split; vm_compute; reflexivity. Qed.

Example three_of_five_not_sustained :
  count_meeting "cpu" 85 (window (store_five 50) noon "10.0.0.7" (Some 5%Z)) = 3%nat
  /\ check_sustained_alert_by_ip production_thresholds (store_five 50) noon
                                 "10.0.0.7" "cpu" 92 (Some 5%Z) = Ok false.
Proof. split; vm_compute; reflexivity. Qed.

Lemma determine_alert_level_boundaries_witness :
  (70 < 85)%Q /\ (85 < 95)%Q
  /\ determine_alert_level 95 (mkThresholds 70 85 95) = Some "emergency"
  /\ determine_alert_level 85 (mkThresholds 70 85 95) = Some "critical"
  /\ determine_alert_level (85 - (1 # 100)) (mkThresholds 70 85 95) = Some "warning".
Proof.
  assert (H1 : (warning (mkThresholds 70 85 95) < critical (mkThresholds 70 85 95))%Q)
    by reflexivity.
  assert (H2 : (critical (mkThresholds 70 85 95) < emergency (mkThresholds 70 85 95))%Q)
    by reflexivity.
  destruct (determine_alert_level_boundaries 85 (mkThresholds 70 85 95) H1 H2)
    as (_ & _ & _ & _ & He & Hc & Heps).
  split; [exact H1|]. split; [exact H2|].
  split; [exact He|]. split; [exact Hc|].
  apply (Heps (1 # 100)); [unfold Qle; simpl; lia | reflexivity].
Defined.

Lemma determine_alert_level_monotone_witness :
  (70 <= 85)%Q /\ (85 <= 95)%Q /\ (72 <= 90)%Q
  /\ (level_rank (determine_alert_level 72 (mkThresholds 70 85 95))
      <= level_rank (determine_alert_level 90 (mkThresholds 70 85 95)))%nat.
Proof.
  assert (H1 : (warning (mkThresholds 70 85 95) <= critical (mkThresholds 70 85 95))%Q)
    by (unfold Qle; simpl; lia).
  assert (H2 : (critical (mkThresholds 70 85 95) <= emergency (mkThresholds 70 85 95))%Q)
    by (unfold Qle; simpl; lia).
  assert (H3 : (72 <= 90)%Q) by (unfold Qle; simpl; lia).
  split; [exact H1|]. split; [exact H2|]. split; [exact H3|].
  apply (determine_alert_level_monotone 72 90 (mkThresholds 70 85 95) H1 H2 H3).
Defined.

(** Three of the five fetched samples reach the critical boundary 85;
    against the warning boundary 70 it would be four. *)
Lemma check_sustained_fraction_witness :
  (3 <= List.length (window (store_five 75) noon "10.0.0.7" (Some 5%Z)))%nat
  /\ production_thresholds "cpu" = Some (mkThresholds 70 85 95)
  /\ determine_alert_level 92 (mkThresholds 70 85 95) = Some "critical"
  /\ count_meeting "cpu" 85 (window (store_five 75) noon "10.0.0.7" (Some 5%Z)) = 3%nat
  /\ count_meeting "cpu" 70 (window (store_five 75) noon "10.0.0.7" (Some 5%Z)) = 4%nat
  /\ check_sustained_alert_by_ip production_thresholds (store_five 75) noon
                                 "10.0.0.7" "cpu" 92 (Some 5%Z) = Ok false.
Proof.
  assert (H1 : (3 <= List.length (window (store_five 75) noon "10.0.0.7" (Some 5%Z)))%nat)
    by (vm_compute; lia).
  assert (H2 : production_thresholds "cpu" = Some (mkThresholds 70 85 95))
    by reflexivity.
  assert (H3 : determine_alert_level 92 (mkThresholds 70 85 95) = Some "critical")
    by reflexivity.
  split; [exact H1|]. split; [exact H2|]. split; [exact H3|].
  split; [vm_compute; reflexivity|]. split; [vm_compute; reflexivity|].
  destruct (check_sustained_fraction production_thresholds (store_five 75) noon
              "10.0.0.7" "cpu" 92 (Some 5%Z) (mkThresholds 70 85 95) "critical"
              H1 H2 H3)
    as (boundary & Hwhich & _ & _ & _ & Hthree).
  destruct Hwhich as [[Hl _] | [[_ Hb] | [Hl _]]]; [discriminate | | discriminate].
  subst boundary. apply Hthree; vm_compute; reflexivity.
Defined.

(** Both fetched samples reach the boundary: only the floor of three
    makes the answer false. *)
Lemma check_sustained_few_samples_witness :
  (List.length (window store_sparse noon "10.0.0.8" (Some 5%Z)) < 3)%nat
  /\ sustained_fraction_met
       (count_meeting "cpu" 95 (window store_sparse noon "10.0.0.8" (Some 5%Z)))
       (List.length (window store_sparse noon "10.0.0.8" (Some 5%Z)))
     = true
  /\ check_sustained_alert_by_ip production_thresholds store_sparse noon
                                 "10.0.0.8" "cpu" 97 (Some 5%Z) = Ok false.
Proof.
  assert (H : (List.length (window store_sparse noon "10.0.0.8" (Some 5%Z)) < 3)%nat)
    by (vm_compute; lia).
  split; [exact H|]. split; [vm_compute; reflexivity|].
  apply (check_sustained_few_samples production_thresholds store_sparse noon
           "10.0.0.8" "cpu" 97 (Some 5%Z) H).
Defined.

(** [db1] has no recipient; a cpu reading of 84.996 sent for it is stored
    as 85.00. *)
Lemma dispatch_no_recipients_witness :
  Server_get_by_ip store "10.0.0.6" = Some db1
  /\ get_alert_users store db1 = []
  /\ check_and_send_alert_by_ip production_thresholds plain_render smtp_flaky
                                store noon [] "10.0.0.6" "cpu" 97
     = (false, [])
  /\ exists row : MonitorData,
      fst (create_by_ip noon store "10.0.0.6" (84996 # 1000) 40 40) = Ok row
      /\ (cpu_value row == 85)%Q.
Proof.
  assert (H1 : Server_get_by_ip store "10.0.0.6" = Some db1) by reflexivity.
  assert (H2 : get_alert_users store db1 = []) by reflexivity.
  split; [exact H1|]. split; [exact H2|].
  destruct (dispatch_no_recipients production_thresholds plain_render smtp_flaky
              store noon [] "10.0.0.6" "cpu" 97 (84996 # 1000) 40 40 db1 H1 H2)
    as (Halert & row & Hrow & _ & _ & Hcpu & _).
  split; [exact Halert|].
  exists row. split; [now rewrite Hrow|].
  rewrite Hcpu. reflexivity.
Defined.

(** Three recipients, the second delivery fails: the third is still
    attempted and the call reports success, two of three. *)
Lemma dispatch_each_recipient_witness :
  Server_get_by_ip store "10.0.0.5" = Some web1
  /\ production_thresholds "cpu" = Some (mkThresholds 70 85 95)
  /\ determine_alert_level 92 (mkThresholds 70 85 95) = Some "critical"
  /\ check_sustained_alert_by_ip production_thresholds store noon
                                 "10.0.0.5" "cpu" 92 (Some 5%Z) = Ok true
  /\ exists sent : maillog,
      check_and_send_alert_by_ip production_thresholds plain_render smtp_flaky
                                 store noon [] "10.0.0.5" "cpu" 92
      = (true, sent)
      /\ map fst sent = ["alice@example.org"; "bob@example.org"; "carol@example.org"]
      /\ attempted sent = 3%nat
      /\ succeeded sent = 2%nat.
Proof.
  assert (H1 : Server_get_by_ip store "10.0.0.5" = Some web1) by reflexivity.
  assert (H2 : production_thresholds "cpu" = Some (mkThresholds 70 85 95))
    by reflexivity.
  assert (H3 : determine_alert_level 92 (mkThresholds 70 85 95) = Some "critical")
    by reflexivity.
  assert (H4 : check_sustained_alert_by_ip production_thresholds store noon
                                           "10.0.0.5" "cpu" 92 (Some 5%Z) = Ok true)
    by (vm_compute; reflexivity).
  split; [exact H1|]. split; [exact H2|]. split; [exact H3|]. split; [exact H4|].
  destruct (dispatch_each_recipient production_thresholds plain_render smtp_flaky
              store noon [] "10.0.0.5" "cpu" 92 web1 (mkThresholds 70 85 95)
              "critical" H1 H2 H3 H4)
    as (sent & Hcall & Hwho & Hatt & _).
  exists sent.
  assert (Hsent : sent = [("alice@example.org", true); ("bob@example.org", false);
                          ("carol@example.org", true)]).
  { vm_compute in Hcall. injection Hcall as _ Hlog. now symmetry. }
  subst sent. repeat split; vm_compute; reflexivity.
Defined.

Lemma create_by_ip_unknown_address_witness :
  (forall s : Server, In s (servers store) -> server_ip s <> "192.168.9.9")
  /\ create_by_ip noon store "192.168.9.9" 50 60 70 = (Raise ValueError, store).
Proof.
  assert (H : forall s : Server, In s (servers store) -> server_ip s <> "192.168.9.9").
  { intros s [<-|[<-|[]]]; discriminate. }
  split; [exact H|].
  apply (create_by_ip_unknown_address noon store "192.168.9.9" 50 60 70 H).
Defined.

(** A purge at 11:58 with a zero-day horizon, run twice. *)
Lemma delete_old_data_idempotent_witness :
  rows_removed store
    (snd (delete_old_data (mkClock (718 * minute) (718 * minute)) store (Some 0)))
  = 4%nat
  /\ rows_removed
       (snd (delete_old_data (mkClock (718 * minute) (718 * minute)) store (Some 0)))
       (snd (delete_old_data (mkClock (718 * minute) (718 * minute))
               (snd (delete_old_data (mkClock (718 * minute) (718 * minute))
                       store (Some 0)))
               (Some 0)))
     = 0%nat.
Proof.
  split; [vm_compute; reflexivity|].
  apply (delete_old_data_idempotent (mkClock (718 * minute) (718 * minute))
           (mkClock (718 * minute) (718 * minute)) store (Some 0)).
  intros r Hr. vm_compute in Hr.
  destruct Hr as [<-|[<-|[<-|[]]]]; vm_compute; discriminate.
Defined.

(** C5, as stated, fails: [db1] has no recipient and an alert for it
    reports failure, not success. *)
Lemma dispatch_no_recipients_not_success :
  get_alert_users store db1 = []
  /\ fst (check_and_send_alert_by_ip production_thresholds plain_render smtp_flaky
                                     store noon [] "10.0.0.6" "cpu" 97)
     <> true.
Proof. split; [reflexivity|]. vm_compute. discriminate. Qed.

(** C6, as stated, fails: with nothing attempted the call does not
    report success. *)
Lemma dispatch_zero_attempted_not_success :
  ~ (fst (check_and_send_alert_by_ip production_thresholds plain_render smtp_flaky
                                     store noon [] "10.0.0.6" "cpu" 97) = true
     <-> (0 < succeeded
                (snd (check_and_send_alert_by_ip production_thresholds plain_render
                        smtp_flaky store noon [] "10.0.0.6" "cpu" 97)))%nat
         \/ attempted
              (snd (check_and_send_alert_by_ip production_thresholds plain_render
                      smtp_flaky store noon [] "10.0.0.6" "cpu" 97))
            = 0%nat).
Proof.
  intros [_ H].
  assert (E : fst (check_and_send_alert_by_ip production_thresholds plain_render
                     smtp_flaky store noon [] "10.0.0.6" "cpu" 97) = true).
  { apply H. right. reflexivity. }
  vm_compute in E. discriminate.
Qed.

(** C8, as stated, fails: the purge removes seven rows and returns
    [None], not 7. *)
Lemma delete_old_data_returns_no_count :
  rows_removed store (snd (delete_old_data noon store (Some 0))) = 7%nat
  /\ fst (delete_old_data noon store (Some 0))
     <> PyInt (Z.of_nat (rows_removed store (snd (delete_old_data noon store (Some 0))))).
Proof. split; [vm_compute; reflexivity|]. vm_compute. discriminate. Qed.

(** ** Further properties of the alert path *)

Lemma Server_get_by_ip_found (db : DB) (ip : string) (server : Server) :
  Server_get_by_ip db ip = Some server ->
  In server (servers db) /\ server_ip server = ip.
Proof.
  unfold Server_get_by_ip. intro H. apply find_some in H as [Hin Heq].
  split; [exact Hin|]. now apply String.eqb_eq.
Qed.

Lemma sustained_count_unknown_kind (metric_type : string) (b : Q) (l : list MonitorData) :
  known_kind metric_type = false -> sustained_count metric_type b l = 0%nat.
Proof.
  intro Hk. rewrite sustained_count_spec. unfold count_meeting.
  replace (filter (meets_boundary metric_type b) l) with (@nil MonitorData);
    [reflexivity|].
  symmetry. induction l as [|d l IH]; [reflexivity|]. simpl.
  unfold known_kind in Hk.
  apply orb_false_iff in Hk as [Hk Hdisk]. apply orb_false_iff in Hk as [Hcpu Hmem].
  unfold meets_boundary, metric_value at 1. rewrite Hcpu, Hmem, Hdisk. exact IH.
Qed.

(** X8. Raising the boundary never lets the loop count more samples. *)
Theorem sustained_count_antitone (metric_type : string) (b1 b2 : Q)
        (l : list MonitorData) :
  (b1 <= b2)%Q ->
  (sustained_count metric_type b2 l <= sustained_count metric_type b1 l)%nat.
Proof.
  intro Hb. rewrite !sustained_count_spec. unfold count_meeting.
  induction l as [|d l IH]; [apply le_n|]. simpl.
  assert (Himp : meets_boundary metric_type b2 d = true ->
                 meets_boundary metric_type b1 d = true).
  { unfold meets_boundary. destruct (metric_value metric_type d) as [v|];
      [|discriminate].
    rewrite !ge_true. intro H. lra. }
  destruct (meets_boundary metric_type b2 d).
  - rewrite (Himp eq_refl). simpl. lia.
  - destruct (meets_boundary metric_type b1 d); simpl; lia.
Qed.

Section AlertPath.

Variable DEFAULT_THRESHOLDS : string -> option Thresholds.
Variable render : string -> string -> string -> Q -> Q -> option string.
Variable smtp : nat -> string -> string -> bool.

Abbreviation check_sustained := (check_sustained_alert_by_ip DEFAULT_THRESHOLDS).
Abbreviation alert := (check_and_send_alert_by_ip DEFAULT_THRESHOLDS render smtp).

(** X1. An alert check for an address that no server has reports failure and
    sends nothing. *)
Theorem alert_unknown_address (db : DB) (clk : Clock) (log : maillog)
        (ip metric_type : string) (value : Q) :
  (forall s : Server, In s (servers db) -> server_ip s <> ip) ->
  alert db clk log ip metric_type value = (false, log).
Proof.
  intro H. unfold check_and_send_alert_by_ip.
  now rewrite (Server_get_by_ip_unknown db ip H).
Qed.

(** X2. A metric type without an entry in the threshold table makes the
    alert check report failure, with no mail, once the server and its
    recipients are found. *)
Theorem alert_unknown_metric (db : DB) (clk : Clock) (log : maillog)
        (ip metric_type : string) (value : Q) (server : Server) :
  Server_get_by_ip db ip = Some server ->
  get_alert_users db server <> [] ->
  DEFAULT_THRESHOLDS metric_type = None ->
  alert db clk log ip metric_type value = (false, log).
Proof.
  intros Hsrv Husers Hth. unfold check_and_send_alert_by_ip.
  rewrite Hsrv. destruct (get_alert_users db server); [contradiction|].
  unfold DEFAULT_THRESHOLDS_getitem. now rewrite Hth.
Qed.

(** X3. When no mail is due, because the value is below the warning
    boundary or because the exceedance is not sustained, the alert check
    reports success and sends nothing. *)
Theorem alert_not_due (db : DB) (clk : Clock) (log : maillog)
        (ip metric_type : string) (value : Q) (server : Server) (th : Thresholds) :
  Server_get_by_ip db ip = Some server ->
  get_alert_users db server <> [] ->
  DEFAULT_THRESHOLDS metric_type = Some th ->
  ((warning th <= critical th)%Q /\ (critical th <= emergency th)%Q
   /\ (value < warning th)%Q)
  \/ check_sustained db clk ip metric_type value (Some 5) = Ok false ->
  alert db clk log ip metric_type value = (true, log).
Proof.
  intros Hsrv Husers Hth Hnot. unfold check_and_send_alert_by_ip.
  rewrite Hsrv. destruct (get_alert_users db server); [contradiction|].
  unfold DEFAULT_THRESHOLDS_getitem at 1. rewrite Hth.
  destruct Hnot as [(Hwc & Hce & Hv) | Hsus].
  - level_cases value th; first [reflexivity | exfalso; lra].
  - rewrite Hsus. now destruct (determine_alert_level value th).
Qed.

(** X4. The alert check only ever appends to the mail log, and what it
    appends is either nothing or one entry per recipient of the server. *)
Theorem alert_log_grows (db : DB) (clk : Clock) (log : maillog)
        (ip metric_type : string) (value : Q) :
  exists sent : maillog,
    snd (alert db clk log ip metric_type value) = log ++ sent
    /\ (sent = []
        \/ exists server : Server,
            Server_get_by_ip db ip = Some server
            /\ map fst sent = map email (get_alert_users db server)).
Proof.
  unfold check_and_send_alert_by_ip.
  destruct (Server_get_by_ip db ip) as [server|] eqn:Hsrv;
    [|exists []; rewrite app_nil_r; auto].
  destruct (get_alert_users db server) as [|u rest] eqn:Hu;
    [exists []; rewrite app_nil_r; auto|].
  destruct (DEFAULT_THRESHOLDS_getitem DEFAULT_THRESHOLDS metric_type) as [th|];
    [|exists []; rewrite app_nil_r; auto].
  destruct (determine_alert_level value th) as [lvl|];
    [|exists []; rewrite app_nil_r; auto].
  destruct (check_sustained db clk ip metric_type value (Some 5)) as [[|]|];
    try (exists []; rewrite app_nil_r; auto; fail).
  rewrite send_loop_spec. cbn [snd].
  eexists. split; [reflexivity|]. right. exists server. split; [reflexivity|].
  rewrite <- Hu. apply deliveries_recipients.
Qed.

(** X5. The boundary of the level the evaluator returns is a boundary the
    value has reached, and it is the threshold that the mail quotes. *)
Theorem alert_level_boundary_reached (value : Q) (th : Thresholds)
        (lvl metric_type : string) :
  determine_alert_level value th = Some lvl ->
  DEFAULT_THRESHOLDS metric_type = Some th ->
  exists boundary : Q,
    thresholds_getitem th lvl = Ok boundary
    /\ get_threshold_by_level DEFAULT_THRESHOLDS lvl metric_type = Ok boundary
    /\ (boundary <= value)%Q.
Proof.
  intros Hlvl Hth. revert Hlvl.
  unfold get_threshold_by_level, DEFAULT_THRESHOLDS_getitem. rewrite Hth. cbn [bind].
  level_cases value th; intro E; inversion E; subst;
    eexists; (split; [reflexivity|]); (split; [reflexivity|]); assumption.
Qed.

(** X6. [send_alert_email] gives up, whatever the transport would do, when
    the metric type has no thresholds or the message cannot be built. *)
Theorem send_alert_email_gives_up (sent : nat) (recipient name metric_type : string)
        (value : Q) (level : string) :
  DEFAULT_THRESHOLDS metric_type = None
  \/ (forall threshold : Q, render level name metric_type value threshold = None) ->
  send_alert_email DEFAULT_THRESHOLDS render smtp sent recipient name
                   metric_type value level = false.
Proof.
  intros [Hth | Hrender]; unfold send_alert_email, get_threshold_by_level,
                          DEFAULT_THRESHOLDS_getitem.
  - now rewrite Hth.
  - destruct (DEFAULT_THRESHOLDS metric_type) as [th|]; cbn [bind]; [|reflexivity].
    destruct (String.eqb level "emergency"); [now rewrite Hrender|].
    destruct (String.eqb level "critical"); [now rewrite Hrender|].
    destruct (String.eqb level "warning"); now rewrite Hrender.
Qed.

(** X7. For a metric type other than cpu, memory and disk the loop counts
    nothing, so the check never answers that the alert is sustained. *)
Theorem unknown_kind_never_sustained (db : DB) (clk : Clock) (ip metric_type : string)
        (value : Q) (minutes : option Z) :
  known_kind metric_type = false ->
  (List.length (window db clk ip minutes) <= 200)%nat ->
  check_sustained db clk ip metric_type value minutes <> Ok true.
Proof.
  intros Hk Hlen. unfold check_sustained_alert_by_ip.
  fold (window db clk ip minutes).
  destruct (Nat.ltb_spec (List.length (window db clk ip minutes)) 3) as [|H3];
    [discriminate|].
  destruct (DEFAULT_THRESHOLDS_getitem DEFAULT_THRESHOLDS metric_type) as [th|];
    cbn [bind]; [|discriminate].
  destruct (determine_alert_level value th) as [lvl|]; [|discriminate].
  destruct (thresholds_getitem th lvl) as [b|]; cbn [bind]; [|discriminate].
  rewrite (sustained_count_unknown_kind metric_type b _ Hk).
  intro E. inversion E as [E'].
  apply (sustained_fraction_exact 0 _ Hlen) in E'; lia.
Qed.

End AlertPath.

(** ** Further properties of the sample store *)

Lemma insert_desc_In (r x : MonitorData) (l : list MonitorData) :
  In x (insert_desc r l) <-> x = r \/ In x l.
Proof.
  induction l as [|a l IH]; simpl.
  - intuition congruence.
  - destruct (recorded_at a <? recorded_at r); simpl; [intuition congruence|].
    rewrite IH. intuition congruence.
Qed.

Lemma order_by_In (x : MonitorData) (l : list MonitorData) :
  In x (order_by_recorded_at_desc l) <-> In x l.
Proof.
  unfold order_by_recorded_at_desc.
  induction l as [|a l IH]; simpl; [reflexivity|].
  rewrite insert_desc_In, IH. intuition congruence.
Qed.

Lemma insert_desc_length (r : MonitorData) (l : list MonitorData) :
  List.length (insert_desc r l) = S (List.length l).
Proof.
  induction l as [|a l IH]; simpl; [reflexivity|].
  destruct (recorded_at a <? recorded_at r); simpl; [reflexivity|].
  now rewrite IH.
Qed.

Lemma order_by_length (l : list MonitorData) :
  List.length (order_by_recorded_at_desc l) = List.length l.
Proof.
  unfold order_by_recorded_at_desc.
  induction l as [|a l IH]; simpl; [reflexivity|].
  now rewrite insert_desc_length, IH.
Qed.

Lemma insert_desc_Forall (P : MonitorData -> Prop) (r : MonitorData)
      (l : list MonitorData) :
  P r -> Forall P l -> Forall P (insert_desc r l).
Proof.
  intros Hr Hl. apply Forall_forall. intros x Hx.
  apply insert_desc_In in Hx as [->|Hx]; [exact Hr|].
  rewrite Forall_forall in Hl. now apply Hl.
Qed.

Lemma insert_desc_sorted (r : MonitorData) (l : list MonitorData) :
  recent_first l -> recent_first (insert_desc r l).
Proof.
  unfold recent_first.
  induction l as [|a l IH]; intro Hs; simpl.
  - constructor; constructor.
  - inversion Hs as [|? ? Htl Hall]; subst.
    destruct (Z.ltb_spec (recorded_at a) (recorded_at r)) as [Hlt|Hge].
    + constructor; [exact Hs|].
      constructor; [lia|].
      eapply Forall_impl; [|exact Hall]. intros b Hb. simpl in Hb. lia.
    + constructor; [now apply IH|].
      apply insert_desc_Forall; [lia|exact Hall].
Qed.

Lemma order_by_sorted (l : list MonitorData) :
  recent_first (order_by_recorded_at_desc l).
Proof.
  unfold order_by_recorded_at_desc.
  induction l as [|a l IH]; simpl; [constructor|].
  now apply insert_desc_sorted.
Qed.

Lemma filter_length_impl {A : Type} (p q : A -> bool) (l : list A) :
  (forall x : A, p x = true -> q x = true) ->
  (List.length (filter p l) <= List.length (filter q l))%nat.
Proof.
  intro H. induction l as [|a l IH]; simpl; [lia|].
  destruct (p a) eqn:Ep.
  - rewrite (H a Ep). simpl. lia.
  - destruct (q a); simpl; lia.
Qed.

Lemma filter_filter_impl {A : Type} (p q : A -> bool) (l : list A) :
  (forall x : A, p x = true -> q x = true) ->
  filter p (filter q l) = filter p l.
Proof.
  intro H. induction l as [|a l IH]; simpl; [reflexivity|].
  destruct (q a) eqn:Eq; simpl.
  - now rewrite IH.
  - destruct (p a) eqn:Ep; [|exact IH].
    apply H in Ep. congruence.
Qed.

(** X11. [get_by_ip] returns exactly the rows of the server that were
    recorded at or after the start time. *)
Theorem get_by_ip_membership (db : DB) (ip : string) (start_time : Z)
        (server : Server) (r : MonitorData) :
  Server_get_by_ip db ip = Some server ->
  (In r (get_by_ip db ip start_time)
   <-> In r (monitor_data db)
       /\ server_id r = server_pk server
       /\ start_time <= recorded_at r).
Proof.
  intro Hsrv. unfold get_by_ip. rewrite Hsrv.
  rewrite order_by_In, filter_In, andb_true_iff, Z.eqb_eq, Z.leb_le.
  reflexivity.
Qed.

(** X12. [get_by_ip] lists the rows most recent first. *)
Theorem get_by_ip_recent_first (db : DB) (ip : string) (start_time : Z) :
  recent_first (get_by_ip db ip start_time).
Proof.
  unfold get_by_ip.
  destruct (Server_get_by_ip db ip); [apply order_by_sorted|constructor].
Qed.

(** X13. A longer window never holds fewer samples: every sample of the
    shorter window is in the longer one. *)
Theorem window_grows_with_minutes (db : DB) (clk : Clock) (ip : string) (m1 m2 : Z) :
  m1 <= m2 ->
  incl (window db clk ip (Some m1)) (window db clk ip (Some m2))
  /\ (List.length (window db clk ip (Some m1))
      <= List.length (window db clk ip (Some m2)))%nat.
Proof.
  intro Hm. unfold window, get_by_ip, timedelta_minutes.
  destruct (Server_get_by_ip db ip) as [server|]; [|split; [easy|apply le_n]].
  split.
  - intros r. rewrite !order_by_In, !filter_In, !andb_true_iff, !Z.leb_le.
    intros (Hin & Hs & Ht). repeat split; try assumption. lia.
  - rewrite !order_by_length. apply filter_length_impl.
    intros r. rewrite !andb_true_iff, !Z.leb_le. intros [Hs Ht]. split; [exact Hs|lia].
Qed.

(** X14. A sample stored by [create_by_ip] is found again by [get_by_ip] for
    the same address, for every start time up to the moment of the write,
    and it is the only row the query gains. *)
Theorem create_by_ip_then_get_by_ip (clk : Clock) (db : DB) (ip : string)
        (cpu mem disk : Q) (start_time : Z) (server : Server) :
  Server_get_by_ip db ip = Some server ->
  start_time <= now clk ->
  exists row : MonitorData,
    fst (create_by_ip clk db ip cpu mem disk) = Ok row
    /\ recorded_at row = now clk
    /\ server_id row = server_pk server
    /\ In row (get_by_ip (snd (create_by_ip clk db ip cpu mem disk)) ip start_time)
    /\ List.length (get_by_ip (snd (create_by_ip clk db ip cpu mem disk)) ip start_time)
       = S (List.length (get_by_ip db ip start_time)).
Proof.
  intros Hsrv Hstart. unfold create_by_ip. rewrite Hsrv. cbn [create fst snd].
  eexists. split; [reflexivity|]. split; [reflexivity|]. split; [reflexivity|].
  unfold get_by_ip, Server_get_by_ip. cbn [with_monitor_data servers monitor_data].
  fold (Server_get_by_ip db ip). rewrite Hsrv.
  rewrite filter_app. cbn [filter server_id recorded_at].
  rewrite Z.eqb_refl. cbn [andb].
  destruct (Z.leb_spec start_time (now clk)) as [_|]; [|lia].
  split.
  - apply order_by_In, in_or_app. right. now left.
  - rewrite !order_by_length, length_app. cbn [List.length]. lia.
Qed.

(** X15. A purge whose horizon is not later than the start of a window leaves
    the window, and with it the sustained check, as it was. *)
Theorem purge_preserves_window (DEFAULT_THRESHOLDS : string -> option Thresholds)
        (clk clk' : Clock) (db : DB) (days minutes : option Z)
        (ip metric_type : string) (value : Q) :
  cutoff_date clk days
  <= utcnow clk' - timedelta_minutes (match minutes with Some m => m | None => 1 end) ->
  window (snd (delete_old_data clk db days)) clk' ip minutes = window db clk' ip minutes
  /\ check_sustained_alert_by_ip DEFAULT_THRESHOLDS (snd (delete_old_data clk db days))
                                 clk' ip metric_type value minutes
     = check_sustained_alert_by_ip DEFAULT_THRESHOLDS db clk' ip metric_type value minutes.
Proof.
  intro Hcut.
  assert (Hw : window (snd (delete_old_data clk db days)) clk' ip minutes
               = window db clk' ip minutes).
  { unfold window, get_by_ip, Server_get_by_ip, delete_old_data.
    cbn [snd with_monitor_data servers monitor_data].
    destruct (find (fun s => String.eqb (server_ip s) ip) (servers db)); [|reflexivity].
    f_equal. apply filter_filter_impl.
    intros r. rewrite andb_true_iff, negb_true_iff, Z.leb_le, Z.ltb_ge.
    intros [_ Ht]. unfold cutoff_date in Hcut. lia. }
  split; [exact Hw|].
  unfold check_sustained_alert_by_ip.
  fold (window (snd (delete_old_data clk db days)) clk' ip minutes).
  fold (window db clk' ip minutes).
  now rewrite Hw.
Qed.

(** X16. A longer retention period keeps every row that a shorter one keeps. *)
Theorem delete_old_data_longer_retention (clk : Clock) (db : DB) (d1 d2 : Z)
        (r : MonitorData) :
  d1 <= d2 ->
  In r (monitor_data (snd (delete_old_data clk db (Some d1)))) ->
  In r (monitor_data (snd (delete_old_data clk db (Some d2)))).
Proof.
  intros Hd. rewrite !delete_old_data_kept. unfold cutoff_date, timedelta_days.
  intros [Hin Ht]. split; [exact Hin|lia].
Qed.

(** X17. A sample written now is not taken by a purge run at the same time,
    for any retention period that is not negative. *)
Theorem fresh_sample_survives_purge (clk : Clock) (db : DB) (ip : string)
        (cpu mem disk : Q) (days : Z) (server : Server) :
  Server_get_by_ip db ip = Some server ->
  0 <= days ->
  exists row : MonitorData,
    fst (create_by_ip clk db ip cpu mem disk) = Ok row
    /\ In row (monitor_data
                 (snd (delete_old_data clk (snd (create_by_ip clk db ip cpu mem disk))
                         (Some days)))).
Proof.
  intros Hsrv Hdays. unfold create_by_ip. rewrite Hsrv. cbn [create fst snd].
  eexists. split; [reflexivity|].
  apply delete_old_data_kept. cbn [with_monitor_data monitor_data]. split.
  - apply in_or_app. right. now left.
  - cbn [recorded_at]. unfold cutoff_date, timedelta_days. lia.
Qed.

(** X18. [get_latest_by_server] finds nothing exactly when the server has no
    sample, and otherwise a sample of the server than which no sample of
    the server is more recent. *)
Theorem get_latest_by_server_latest (db : DB) (sid : Z) :
  match get_latest_by_server db sid with
  | None => forall r : MonitorData, In r (monitor_data db) -> server_id r <> sid
  | Some latest =>
      In latest (monitor_data db)
      /\ server_id latest = sid
      /\ forall r : MonitorData,
          In r (monitor_data db) -> server_id r = sid ->
          recorded_at r <= recorded_at latest
  end.
Proof.
  unfold get_latest_by_server.
  pose proof (order_by_sorted (filter (fun r => Z.eqb (server_id r) sid) (monitor_data db)))
    as Hsorted.
  pose proof (fun x => order_by_In x (filter (fun r => Z.eqb (server_id r) sid)
                                           (monitor_data db))) as Hmem.
  destruct (order_by_recorded_at_desc
              (filter (fun r => Z.eqb (server_id r) sid) (monitor_data db)))
    as [|latest rest]; cbn [hd_error].
  - intros r Hr Hs. apply (proj2 (Hmem r)). apply filter_In. split; [exact Hr|].
    now apply Z.eqb_eq.
  - assert (Hl : In latest (monitor_data db) /\ server_id latest = sid).
    { specialize (proj1 (Hmem latest) (or_introl eq_refl)) as H.
      apply filter_In in H as [H1 H2]. split; [exact H1|now apply Z.eqb_eq]. }
    destruct Hl as [Hl1 Hl2]. repeat split; try assumption.
    intros r Hr Hs.
    assert (Hin : In r (latest :: rest)).
    { apply Hmem, filter_In. split; [exact Hr|now apply Z.eqb_eq]. }
    destruct Hin as [->|Hin]; [lia|].
    unfold recent_first in Hsorted.
    inversion Hsorted as [|? ? _ Hall]; subst.
    rewrite Forall_forall in Hall. now apply Hall.
Qed.

(** ** Servers, users and their association *)

Lemma find_by_key_in {A : Type} (key : A -> Z) (k : Z) (l : list A) (a : A) :
  In a l -> key a = k -> exists b : A, find (fun x => Z.eqb (key x) k) l = Some b.
Proof.
  intros Hin Hk.
  destruct (find (fun x => Z.eqb (key x) k) l) as [b|] eqn:E; [now exists b|].
  apply (find_none _ _ E) in Hin. rewrite Hk, Z.eqb_refl in Hin. discriminate.
Qed.

Lemma NoDup_map_eq {A B : Type} (f : A -> B) (l : list A) (a b : A) :
  NoDup (map f l) -> In a l -> In b l -> f a = f b -> a = b.
Proof.
  induction l as [|x l IH]; intros Hnd Ha Hb Hf; [contradiction|].
  simpl in Hnd. inversion Hnd as [|? ? Hnotin Hnd']; subst.
  destruct Ha as [->|Ha], Hb as [->|Hb].
  - reflexivity.
  - exfalso. apply Hnotin. rewrite Hf. now apply in_map.
  - exfalso. apply Hnotin. rewrite <- Hf. now apply in_map.
  - now apply IH.
Qed.

(** X19. The two directions of the association agree: a server is among the
    servers of a user exactly when the user is among the recipients of the
    server. *)
Theorem get_by_user_agrees (db : DB) (s : Server) (u : User) :
  In s (servers db) ->
  In u (users db) ->
  (In s (get_by_user db (user_id u)) <-> In u (get_alert_users db s)).
Proof.
  intros Hs Hu. unfold get_by_user, get_alert_users.
  rewrite !filter_In. tauto.
Qed.

(** X20. [Server.delete] of an existing server answers true and leaves
    no sample, no association and no row of that server; it touches
    nothing that belongs to another server, and no user. *)
Theorem Server_delete_removes (db : DB) (sid : Z) (server : Server) :
  In server (servers db) ->
  server_pk server = sid ->
  fst (Server_delete db sid) = true
  /\ Server_get_by_id (snd (Server_delete db sid)) sid = None
  /\ (forall r : MonitorData,
         In r (monitor_data (snd (Server_delete db sid)))
         <-> In r (monitor_data db) /\ server_id r <> sid)
  /\ (forall p : Z * Z,
         In p (server_users (snd (Server_delete db sid)))
         <-> In p (server_users db) /\ fst p <> sid)
  /\ (forall s : Server,
         In s (servers (snd (Server_delete db sid)))
         <-> In s (servers db) /\ server_pk s <> sid)
  /\ users (snd (Server_delete db sid)) = users db.
Proof.
  intros Hin Hpk.
  destruct (find_by_key_in server_pk sid (servers db) server Hin Hpk) as [b Hb].
  unfold Server_delete, Server_get_by_id. rewrite Hb.
  cbn [fst snd servers monitor_data server_users users].
  split; [reflexivity|]. split.
  - destruct (find (fun s => Z.eqb (server_pk s) sid)
                   (filter (fun s => negb (Z.eqb (server_pk s) sid)) (servers db)))
      as [s|] eqn:E; [|reflexivity].
    apply find_some in E as [E1 E2]. apply filter_In in E1 as [_ E1].
    rewrite E2 in E1. discriminate.
  - split; [|split; [|split; [|reflexivity]]];
      intros x; rewrite filter_In, negb_true_iff, Z.eqb_neq; reflexivity.
Qed.

(** X21. Once a server is deleted, an alert check for its address finds no
    server: it reports failure and sends nothing. Addresses are unique in
    [servers]. *)
Theorem alert_after_Server_delete
        (DEFAULT_THRESHOLDS : string -> option Thresholds)
        (render : string -> string -> string -> Q -> Q -> option string)
        (smtp : nat -> string -> string -> bool)
        (db : DB) (clk : Clock) (log : maillog) (ip metric_type : string)
        (value : Q) (server : Server) :
  NoDup (map server_ip (servers db)) ->
  Server_get_by_ip db ip = Some server ->
  check_and_send_alert_by_ip DEFAULT_THRESHOLDS render smtp
                             (snd (Server_delete db (server_pk server)))
                             clk log ip metric_type value
  = (false, log)
  /\ get_by_ip (snd (Server_delete db (server_pk server))) ip 0 = [].
Proof.
  intros Huniq Hsrv.
  apply Server_get_by_ip_found in Hsrv as [Hin Hip].
  assert (Hnone : forall s : Server,
             In s (servers (snd (Server_delete db (server_pk server)))) ->
             server_ip s <> ip).
  { intros s Hs Heq.
    destruct (find_by_key_in server_pk (server_pk server) (servers db) server
                             Hin eq_refl) as [b Hb].
    unfold Server_delete, Server_get_by_id in Hs. rewrite Hb in Hs.
    cbn [snd servers] in Hs.
    apply filter_In in Hs as [Hs Hne].
    rewrite negb_true_iff, Z.eqb_neq in Hne. apply Hne.
    f_equal. apply (NoDup_map_eq server_ip (servers db)); congruence. }
  split.
  - unfold check_and_send_alert_by_ip.
    now rewrite (Server_get_by_ip_unknown _ ip Hnone).
  - unfold get_by_ip. now rewrite (Server_get_by_ip_unknown _ ip Hnone).
Qed.

(** X22. [User.delete] of an existing user takes that user, and nobody else,
    out of the recipients of every server. *)
Theorem User_delete_removes_recipient (db : DB) (uid : Z) (user : User)
        (s : Server) (u : User) :
  In user (users db) ->
  user_id user = uid ->
  fst (User_delete db uid) = true
  /\ (In u (get_alert_users (snd (User_delete db uid)) s)
      <-> In u (get_alert_users db s) /\ user_id u <> uid).
Proof.
  intros Hin Hid.
  destruct (find_by_key_in user_id uid (users db) user Hin Hid) as [b Hb].
  unfold User_delete, User_get_by_id. rewrite Hb. cbn [fst snd].
  split; [reflexivity|].
  unfold get_alert_users. cbn [users server_users].
  rewrite !filter_In, negb_true_iff, Z.eqb_neq, !existsb_exists.
  split.
  - intros [[Hu Hne] [p [Hp Hmatch]]].
    apply filter_In in Hp as [Hp _].
    split; [split; [exact Hu|exists p; split; assumption]|exact Hne].
  - intros [[Hu [p [Hp Hmatch]]] Hne].
    split; [split; assumption|].
    exists p. split; [|exact Hmatch].
    apply filter_In. split; [exact Hp|].
    apply andb_true_iff in Hmatch as [_ Hsnd]. apply Z.eqb_eq in Hsnd.
    rewrite negb_true_iff, Z.eqb_neq. congruence.
Qed.

(** ** The two clocks *)

Lemma filter_none {A : Type} (p : A -> bool) (l : list A) :
  (forall x : A, In x l -> p x = false) -> filter p l = [].
Proof.
  induction l as [|a l IH]; intro H; simpl; [reflexivity|].
  rewrite (H a (or_introl eq_refl)). apply IH. intros x Hx. apply H. now right.
Qed.

Section Clocks.

Variable DEFAULT_THRESHOLDS : string -> option Thresholds.
Variable render : string -> string -> string -> Q -> Q -> option string.
Variable smtp : nat -> string -> string -> bool.

(** X10. Samples are stamped with the local time and the window starts from
    the UTC time. Where the local time is behind UTC by more than the
    window, no sample stamped so far is in the window: the check answers
    false and the alert check sends no mail. *)
Theorem behind_utc_never_sustained (db : DB) (clk : Clock) (log : maillog)
        (ip metric_type : string) (value : Q) (minutes : Z) :
  (forall r : MonitorData, In r (monitor_data db) -> recorded_at r <= now clk) ->
  now clk < utcnow clk - timedelta_minutes minutes ->
  window db clk ip (Some minutes) = []
  /\ check_sustained_alert_by_ip DEFAULT_THRESHOLDS db clk ip metric_type value
                                 (Some minutes) = Ok false
  /\ (minutes = 5 ->
      snd (check_and_send_alert_by_ip DEFAULT_THRESHOLDS render smtp db clk log
                                      ip metric_type value) = log).
Proof.
  intros Hpast Hbehind.
  assert (Hw : window db clk ip (Some minutes) = []).
  { unfold window, get_by_ip.
    destruct (Server_get_by_ip db ip) as [server|]; [|reflexivity].
    rewrite filter_none; [reflexivity|].
    intros r Hr. apply Hpast in Hr.
    apply andb_false_iff. right. apply Z.leb_gt. lia. }
  assert (Hc : check_sustained_alert_by_ip DEFAULT_THRESHOLDS db clk ip metric_type
                                           value (Some minutes) = Ok false).
  { unfold check_sustained_alert_by_ip. fold (window db clk ip (Some minutes)).
    now rewrite Hw. }
  split; [exact Hw|]. split; [exact Hc|].
  intros ->. unfold check_and_send_alert_by_ip.
  destruct (Server_get_by_ip db ip) as [server|]; [|reflexivity].
  destruct (get_alert_users db server); [reflexivity|].
  destruct (DEFAULT_THRESHOLDS_getitem DEFAULT_THRESHOLDS metric_type) as [th|];
    [|reflexivity].
  destruct (determine_alert_level value th); [|reflexivity].
  now rewrite Hc.
Qed.

(** X9. The sustained check raises only [KeyError], and exactly when the
    window holds at least 3 samples and the metric type has no entry in
    the threshold table: with fewer samples an unknown metric type goes
    unnoticed. *)
Theorem check_sustained_raises_iff (db : DB) (clk : Clock) (ip metric_type : string)
        (value : Q) (minutes : option Z) (e : exn) :
  check_sustained_alert_by_ip DEFAULT_THRESHOLDS db clk ip metric_type value minutes
  = Raise e
  <-> e = KeyError
      /\ (3 <= List.length (window db clk ip minutes))%nat
      /\ DEFAULT_THRESHOLDS metric_type = None.
Proof.
  unfold check_sustained_alert_by_ip. fold (window db clk ip minutes).
  unfold DEFAULT_THRESHOLDS_getitem.
  destruct (Nat.ltb_spec (List.length (window db clk ip minutes)) 3) as [Hlt|Hge].
  - split; [discriminate|]. intros (_ & H & _). lia.
  - destruct (DEFAULT_THRESHOLDS metric_type) as [th|]; cbn [bind].
    + split; [|intros (_ & _ & H); discriminate].
      destruct (determine_alert_level value th) as [lvl|] eqn:Hlvl; [|discriminate].
      destruct (determine_alert_level_key value th lvl Hlvl) as [b Hb].
      rewrite Hb. discriminate.
    + split.
      * intro E. inversion E. auto.
      * intros (-> & _ & _). reflexivity.
Qed.

End Clocks.

(** ** The two decimals of a stored sample *)

Lemma round_half_even_bounds (x : Q) :
  - Z.pos (Qden x)
  <= 2 * (round_half_even x * Z.pos (Qden x) - Qnum x)
  <= Z.pos (Qden x).
Proof.
  unfold round_half_even.
  pose proof (Z.div_mod (Qnum x) (Z.pos (Qden x)) ltac:(lia)) as Hdm.
  pose proof (Z.mod_pos_bound (Qnum x) (Z.pos (Qden x)) ltac:(lia)) as Hr.
  set (q := Qnum x / Z.pos (Qden x)) in *.
  set (r := Qnum x mod Z.pos (Qden x)) in *.
  destruct (Z.compare_spec (2 * r) (Z.pos (Qden x))) as [He|Hl|Hg].
  - destruct (Z.even q); nia.
  - nia.
  - nia.
Qed.

Lemma DECIMAL_5_2_nearest (x : Q) :
  (x - (1 # 200) <= DECIMAL_5_2 x)%Q /\ (DECIMAL_5_2 x <= x + (1 # 200))%Q.
Proof.
  unfold DECIMAL_5_2.
  pose proof (round_half_even_bounds (x * 100)) as Hb.
  set (k := round_half_even (x * 100)) in *.
  destruct x as [n d]. cbn [Qnum Qden Qmult] in Hb.
  rewrite Pos.mul_1_r in Hb.
  unfold Qle, Qminus, Qplus, Qopp. cbn [Qnum Qden].
  rewrite !Pos2Z.inj_mul. split; nia.
Qed.

Lemma DECIMAL_5_2_hundredths (k : Z) : DECIMAL_5_2 (k # 100) = (k # 100).
Proof.
  unfold DECIMAL_5_2, round_half_even. cbn [Qmult Qnum Qden].
  change (Z.pos (100 * 1)) with 100.
  rewrite Z.div_mul, Z.mod_mul by lia. reflexivity.
Qed.

(** X25. A sample stored by [create_by_ip] holds each metric as a number
    of hundredths no further than 0.005 from the value submitted, and a
    value that is a number of hundredths already is stored as it is. *)
Theorem create_by_ip_two_decimals (clk : Clock) (db : DB) (ip : string)
        (cpu mem disk : Q) (server : Server) :
  Server_get_by_ip db ip = Some server ->
  exists (row : MonitorData) (c m d : Z),
    fst (create_by_ip clk db ip cpu mem disk) = Ok row
    /\ cpu_value row = c # 100
    /\ memory_value row = m # 100
    /\ disk_value row = d # 100
    /\ (cpu - (1 # 200) <= c # 100)%Q /\ (c # 100 <= cpu + (1 # 200))%Q
    /\ (mem - (1 # 200) <= m # 100)%Q /\ (m # 100 <= mem + (1 # 200))%Q
    /\ (disk - (1 # 200) <= d # 100)%Q /\ (d # 100 <= disk + (1 # 200))%Q
    /\ (forall k : Z, cpu = k # 100 -> c = k)
    /\ (forall k : Z, mem = k # 100 -> m = k)
    /\ (forall k : Z, disk = k # 100 -> d = k).
Proof.
  intro Hsrv. unfold create_by_ip. rewrite Hsrv. cbn [create fst].
  eexists. exists (round_half_even (cpu * 100)), (round_half_even (mem * 100)),
             (round_half_even (disk * 100)).
  split; [reflexivity|].
  cbn [cpu_value memory_value disk_value].
  split; [reflexivity|]. split; [reflexivity|]. split; [reflexivity|].
  destruct (DECIMAL_5_2_nearest cpu) as [Hc1 Hc2].
  destruct (DECIMAL_5_2_nearest mem) as [Hm1 Hm2].
  destruct (DECIMAL_5_2_nearest disk) as [Hd1 Hd2].
  repeat (split; [assumption|]).
  split; [|split]; intros k ->;
    pose proof (DECIMAL_5_2_hundredths k) as E; unfold DECIMAL_5_2 in E;
    injection E as E; exact E.
Qed.

(** ** The further properties on the fixtures *)

Lemma sustained_count_antitone_witness :
  (85 <= 90)%Q
  /\ (sustained_count "cpu" 90 (monitor_data store)
      <= sustained_count "cpu" 85 (monitor_data store))%nat.
Proof.
  assert (H : (85 <= 90)%Q) by (unfold Qle; simpl; lia).
  split; [exact H|].
  apply (sustained_count_antitone "cpu" 85 90 (monitor_data store) H).
Defined.

Lemma alert_unknown_address_witness :
  (forall s : Server, In s (servers store) -> server_ip s <> "192.168.9.9")
  /\ check_and_send_alert_by_ip production_thresholds plain_render smtp_flaky
                                store noon [] "192.168.9.9" "cpu" 97
     = (false, []).
Proof.
  assert (H : forall s : Server, In s (servers store) -> server_ip s <> "192.168.9.9").
  { intros s [<-|[<-|[]]]; discriminate. }
  split; [exact H|].
  apply (alert_unknown_address production_thresholds plain_render smtp_flaky
           store noon [] "192.168.9.9" "cpu" 97 H).
Defined.

Lemma alert_unknown_metric_witness :
  Server_get_by_ip store "10.0.0.5" = Some web1
  /\ get_alert_users store web1 <> []
  /\ production_thresholds "network" = None
  /\ check_and_send_alert_by_ip production_thresholds plain_render smtp_flaky
                                store noon [] "10.0.0.5" "network" 97
     = (false, []).
Proof.
  assert (H1 : Server_get_by_ip store "10.0.0.5" = Some web1) by reflexivity.
  assert (H2 : get_alert_users store web1 <> []) by (vm_compute; discriminate).
  assert (H3 : production_thresholds "network" = None) by reflexivity.
  split; [exact H1|]. split; [exact H2|]. split; [exact H3|].
  apply (alert_unknown_metric production_thresholds plain_render smtp_flaky
           store noon [] "10.0.0.5" "network" 97 web1 H1 H2 H3).
Defined.

Lemma alert_not_due_witness :
  Server_get_by_ip store "10.0.0.5" = Some web1
  /\ get_alert_users store web1 <> []
  /\ production_thresholds "cpu" = Some (mkThresholds 70 85 95)
  /\ (50 < 70)%Q
  /\ check_and_send_alert_by_ip production_thresholds plain_render smtp_flaky
                                store noon [] "10.0.0.5" "cpu" 50
     = (true, []).
Proof.
  assert (H1 : Server_get_by_ip store "10.0.0.5" = Some web1) by reflexivity.
  assert (H2 : get_alert_users store web1 <> []) by (vm_compute; discriminate).
  assert (H3 : production_thresholds "cpu" = Some (mkThresholds 70 85 95))
    by reflexivity.
  assert (H4 : (50 < 70)%Q) by reflexivity.
  split; [exact H1|]. split; [exact H2|]. split; [exact H3|]. split; [exact H4|].
  apply (alert_not_due production_thresholds plain_render smtp_flaky
           store noon [] "10.0.0.5" "cpu" 50 web1 (mkThresholds 70 85 95) H1 H2 H3).
  left. split; [unfold Qle; simpl; lia|]. split; [unfold Qle; simpl; lia|exact H4].
Defined.

Lemma alert_level_boundary_reached_witness :
  determine_alert_level 92 (mkThresholds 70 85 95) = Some "critical"
  /\ production_thresholds "cpu" = Some (mkThresholds 70 85 95)
  /\ exists boundary : Q,
      get_threshold_by_level production_thresholds "critical" "cpu" = Ok boundary
      /\ (boundary <= 92)%Q.
Proof.
  assert (H1 : determine_alert_level 92 (mkThresholds 70 85 95) = Some "critical")
    by reflexivity.
  assert (H2 : production_thresholds "cpu" = Some (mkThresholds 70 85 95))
    by reflexivity.
  split; [exact H1|]. split; [exact H2|].
  destruct (alert_level_boundary_reached production_thresholds 92
              (mkThresholds 70 85 95) "critical" "cpu" H1 H2)
    as (boundary & _ & Hb & Hle).
  exists boundary. split; assumption.
Defined.

Lemma send_alert_email_gives_up_witness :
  production_thresholds "network" = None
  /\ send_alert_email production_thresholds plain_render smtp_flaky 0
                      "alice@example.org" "web1" "network" 97 "emergency"
     = false.
Proof.
  assert (H : production_thresholds "network" = None) by reflexivity.
  split; [exact H|].
  apply (send_alert_email_gives_up production_thresholds plain_render smtp_flaky 0
           "alice@example.org" "web1" "network" 97 "emergency").
  left. exact H.
Defined.

(** Thresholds are configured for a kind the loop does not know. *)
Lemma unknown_kind_never_sustained_witness :
  known_kind "network" = false
  /\ (List.length (window store noon "10.0.0.5" (Some 5%Z)) <= 200)%nat
  /\ check_sustained_alert_by_ip (fun _ => Some (mkThresholds 70 85 95)) store noon
                                 "10.0.0.5" "network" 97 (Some 5%Z)
     <> Ok true.
Proof.
  assert (H1 : known_kind "network" = false) by reflexivity.
  assert (H2 : (List.length (window store noon "10.0.0.5" (Some 5%Z)) <= 200)%nat)
    by (vm_compute; lia).
  split; [exact H1|]. split; [exact H2|].
  apply (unknown_kind_never_sustained (fun _ => Some (mkThresholds 70 85 95)) store noon
           "10.0.0.5" "network" 97 (Some 5%Z) H1 H2).
Defined.

Lemma get_by_ip_membership_witness :
  Server_get_by_ip store "10.0.0.5" = Some web1
  /\ (In (sample 5 web1 91 2) (get_by_ip store "10.0.0.5" (717 * minute))
      <-> In (sample 5 web1 91 2) (monitor_data store)
          /\ server_id (sample 5 web1 91 2) = server_pk web1
          /\ 717 * minute <= recorded_at (sample 5 web1 91 2)).
Proof.
  assert (H : Server_get_by_ip store "10.0.0.5" = Some web1) by reflexivity.
  split; [exact H|].
  apply (get_by_ip_membership store "10.0.0.5" (717 * minute) web1
           (sample 5 web1 91 2) H).
Defined.

Lemma window_grows_with_minutes_witness :
  1 <= 5
  /\ (List.length (window store noon "10.0.0.5" (Some 1%Z))
      <= List.length (window store noon "10.0.0.5" (Some 5%Z)))%nat.
Proof.
  assert (H : 1 <= 5) by lia.
  split; [exact H|].
  apply (window_grows_with_minutes store noon "10.0.0.5" 1 5 H).
Defined.

Lemma create_by_ip_then_get_by_ip_witness :
  Server_get_by_ip store "10.0.0.5" = Some web1
  /\ 715 * minute <= now noon
  /\ List.length (get_by_ip (snd (create_by_ip noon store "10.0.0.5" 92 40 40))
                            "10.0.0.5" (715 * minute))
     = 5%nat.
Proof.
  assert (H1 : Server_get_by_ip store "10.0.0.5" = Some web1) by reflexivity.
  assert (H2 : 715 * minute <= now noon) by (vm_compute; discriminate).
  split; [exact H1|]. split; [exact H2|].
  destruct (create_by_ip_then_get_by_ip noon store "10.0.0.5" 92 40 40
              (715 * minute) web1 H1 H2)
    as (row & _ & _ & _ & _ & Hlen).
  rewrite Hlen. reflexivity.
Defined.

Lemma purge_preserves_window_witness :
  cutoff_date noon (Some 30) <= utcnow noon - timedelta_minutes 5
  /\ window (snd (delete_old_data noon store (Some 30))) noon "10.0.0.5" (Some 5%Z)
     = window store noon "10.0.0.5" (Some 5%Z).
Proof.
  assert (H : cutoff_date noon (Some 30) <= utcnow noon - timedelta_minutes 5)
    by (vm_compute; discriminate).
  split; [exact H|].
  apply (purge_preserves_window production_thresholds noon noon store (Some 30)
           (Some 5) "10.0.0.5" "cpu" 92 H).
Defined.

Lemma delete_old_data_longer_retention_witness :
  0 <= 1
  /\ In (sample 7 web1 88 1)
        (monitor_data
           (snd (delete_old_data (mkClock (718 * minute) (718 * minute)) store (Some 0))))
  /\ In (sample 7 web1 88 1)
        (monitor_data
           (snd (delete_old_data (mkClock (718 * minute) (718 * minute)) store (Some 1)))).
Proof.
  assert (H1 : 0 <= 1) by lia.
  assert (H2 : In (sample 7 web1 88 1)
                  (monitor_data
                     (snd (delete_old_data (mkClock (718 * minute) (718 * minute))
                             store (Some 0))))).
  { vm_compute. right. right. left. reflexivity. }
  split; [exact H1|]. split; [exact H2|].
  apply (delete_old_data_longer_retention (mkClock (718 * minute) (718 * minute))
           store 0 1 (sample 7 web1 88 1) H1 H2).
Defined.

Lemma fresh_sample_survives_purge_witness :
  Server_get_by_ip store "10.0.0.5" = Some web1
  /\ 0 <= 0
  /\ exists row : MonitorData,
      fst (create_by_ip noon store "10.0.0.5" 92 40 40) = Ok row
      /\ In row (monitor_data
                   (snd (delete_old_data noon
                           (snd (create_by_ip noon store "10.0.0.5" 92 40 40))
                           (Some 0)))).
Proof.
  assert (H1 : Server_get_by_ip store "10.0.0.5" = Some web1) by reflexivity.
  assert (H2 : 0 <= 0) by lia.
  split; [exact H1|]. split; [exact H2|].
  apply (fresh_sample_survives_purge noon store "10.0.0.5" 92 40 40 0 web1 H1 H2).
Defined.

Lemma get_by_user_agrees_witness :
  In web1 (servers store)
  /\ In alice (users store)
  /\ (In web1 (get_by_user store (user_id alice))
      <-> In alice (get_alert_users store web1)).
Proof.
  assert (H1 : In web1 (servers store)) by (left; reflexivity).
  assert (H2 : In alice (users store)) by (left; reflexivity).
  split; [exact H1|]. split; [exact H2|].
  apply (get_by_user_agrees store web1 alice H1 H2).
Defined.

Lemma Server_delete_removes_witness :
  In web1 (servers store)
  /\ server_pk web1 = 1
  /\ fst (Server_delete store 1) = true
  /\ Server_get_by_id (snd (Server_delete store 1)) 1 = None.
Proof.
  assert (H1 : In web1 (servers store)) by (left; reflexivity).
  assert (H2 : server_pk web1 = 1) by reflexivity.
  split; [exact H1|]. split; [exact H2|].
  destruct (Server_delete_removes store 1 web1 H1 H2) as (Hret & Hgone & _).
  split; assumption.
Defined.

Lemma alert_after_Server_delete_witness :
  NoDup (map server_ip (servers store))
  /\ Server_get_by_ip store "10.0.0.5" = Some web1
  /\ check_and_send_alert_by_ip production_thresholds plain_render smtp_flaky
                                (snd (Server_delete store (server_pk web1)))
                                noon [] "10.0.0.5" "cpu" 92
     = (false, []).
Proof.
  assert (H1 : NoDup (map server_ip (servers store))).
  { repeat constructor; simpl; intuition discriminate. }
  assert (H2 : Server_get_by_ip store "10.0.0.5" = Some web1) by reflexivity.
  split; [exact H1|]. split; [exact H2|].
  apply (alert_after_Server_delete production_thresholds plain_render smtp_flaky
           store noon [] "10.0.0.5" "cpu" 92 web1 H1 H2).
Defined.

Lemma User_delete_removes_recipient_witness :
  In bob (users store)
  /\ user_id bob = 2
  /\ fst (User_delete store 2) = true
  /\ (In alice (get_alert_users (snd (User_delete store 2)) web1)
      <-> In alice (get_alert_users store web1) /\ user_id alice <> 2).
Proof.
  assert (H1 : In bob (users store)) by (right; left; reflexivity).
  assert (H2 : user_id bob = 2) by reflexivity.
  split; [exact H1|]. split; [exact H2|].
  apply (User_delete_removes_recipient store 2 bob web1 alice H1 H2).
Defined.

(** A host five hours behind UTC. *)
Lemma behind_utc_never_sustained_witness :
  (forall r : MonitorData,
      In r (monitor_data store) -> recorded_at r <= now (mkClock (720 * minute) (1020 * minute)))
  /\ now (mkClock (720 * minute) (1020 * minute))
     < utcnow (mkClock (720 * minute) (1020 * minute)) - timedelta_minutes 5
  /\ check_sustained_alert_by_ip production_thresholds store
                                 (mkClock (720 * minute) (1020 * minute))
                                 "10.0.0.5" "cpu" 92 (Some 5%Z)
     = Ok false.
Proof.
  assert (H1 : forall r : MonitorData,
             In r (monitor_data store) ->
             recorded_at r <= now (mkClock (720 * minute) (1020 * minute))).
  { intros r Hr. vm_compute in Hr.
    repeat (destruct Hr as [<-|Hr]; [vm_compute; discriminate|]).
    contradiction. }
  assert (H2 : now (mkClock (720 * minute) (1020 * minute))
               < utcnow (mkClock (720 * minute) (1020 * minute)) - timedelta_minutes 5)
    by (vm_compute; reflexivity).
  split; [exact H1|]. split; [exact H2|].
  apply (behind_utc_never_sustained production_thresholds plain_render smtp_flaky
           store (mkClock (720 * minute) (1020 * minute)) [] "10.0.0.5" "cpu" 92 5
           H1 H2).
Defined.

(** A cpu reading of 84.996 is stored as 85.00, and 40.12 as it is. *)
Lemma create_by_ip_two_decimals_witness :
  Server_get_by_ip store "10.0.0.5" = Some web1
  /\ exists row : MonitorData,
      fst (create_by_ip noon store "10.0.0.5" (84996 # 1000) (4012 # 100) 40) = Ok row
      /\ cpu_value row = 8500 # 100
      /\ memory_value row = 4012 # 100.
Proof.
  assert (H : Server_get_by_ip store "10.0.0.5" = Some web1) by reflexivity.
  split; [exact H|].
  destruct (create_by_ip_two_decimals noon store "10.0.0.5" (84996 # 1000)
              (4012 # 100) 40 web1 H)
    as (row & c & m & d & Hrow & Hc & Hm & _ & Hlo & Hhi & _ & _ & _ & _ & _ & Hmk & _).
  exists row. split; [exact Hrow|].
  rewrite Hc, Hm, (Hmk 4012 eq_refl).
  split; [|reflexivity].
  f_equal. unfold Qle, Qminus, Qplus, Qopp in Hlo, Hhi.
  cbn [Qnum Qden] in Hlo, Hhi. lia.
Defined.
